(** * HookManager: the hook registry of ReShade (src/HookManager.cpp)

    A shallow embedding of the hook manager: the process-wide tables
    ([sHooks], [sDelayedHookPaths], [sVTableAddresses], the deferred export
    module), the three installation strategies, the export-table reader, the
    bulk installer and the load-watch hooks.

    Everything the manager obtains from outside the translation unit (the
    trampoline patcher of Hook.cpp, the Win32 loader and memory-protection
    calls, the typed views [reinterpret_cast] gives on a module image, the
    boost path and string helpers) is an operation of the class [Host] over
    an abstract world [W], so every theorem holds for every behaviour of
    those collaborators.

    The overloads of the source get one name each: [Install_hook] and
    [Install_module] are the two internal [Install]s, [Install] and
    [Install_vtable] the two public ones, [Uninstall_hook] the internal
    [Uninstall] and [Uninstall] the public one.  The embedding is
    sequential, one entry point at a time: the critical section [sCS] has no
    counterpart.  [assert]s are compiled out of a release build and are not
    modelled; no theorem relies on an asserted condition.  Logging has no
    effect on control flow and is left out. *)

From stdpp Require Import gmap strings list fin_maps.
From Stdlib Require Import ZArith String Ascii.

Local Open Scope Z_scope.

(** ** Data model *)

(** [Hook::Function] is [void *]; addresses are integers, [nullptr] is 0. *)
Abbreviation Function := Z (only parsing).
Abbreviation HMODULE := Z (only parsing).
Abbreviation path := string (only parsing).
Definition nullptr : Z := 0.

Inductive HookType := Export | FunctionHook | VTableHook.

#[global] Instance HookType_eq_dec : EqDecision HookType.
Proof. solve_decision. Defined.

(** [Hook::Status]: the manager only tells [Success] from the rest and
    produces [Unknown] and [MemoryProtectionFailure] itself; the remaining
    codes of the patcher are kept opaque. *)
Inductive Status :=
  | Unknown
  | Success
  | MemoryProtectionFailure
  | PatcherFailure (code : Z).

(** Modelled from the spec: the [Hook] value type of Hook.hpp (target,
    replacement, trampoline), which is not part of src/. *)
Record Hook := mkHook {
  Target : Function;
  Replacement : Function;
  Trampoline : Function
}.

#[global] Instance Hook_eq_dec : EqDecision Hook.
Proof. solve_decision. Defined.

(** [Hook()]: the empty hook returned by [Find] when nothing is tracked. *)
Definition Hook_empty : Hook := mkHook nullptr nullptr nullptr.

(** Modelled from the spec: [Hook::IsInstalled], "already uninstalled
    (trampoline is null)". *)
Definition IsInstalled (hook : Hook) : bool :=
  bool_decide (Trampoline hook ≠ nullptr).

(** Modelled from the spec: [Hook::IsValid]; the empty hook and a hook with
    [target == replacement] are invalid. *)
Definition IsValid (hook : Hook) : bool :=
  bool_decide (Target hook ≠ nullptr) && bool_decide (Replacement hook ≠ nullptr)
  && bool_decide (Target hook ≠ Replacement hook).

(** Modelled from the spec: [Hook::Call] yields the trampoline address. *)
Definition Hook_Call (hook : Hook) : Function := Trampoline hook.

Record ModuleExport := mkExport {
  Address : Z;        (* void *Address *)
  Name : Z;           (* const char *Name, a pointer into the image *)
  Ordinal : Z         (* unsigned short *)
}.

(** The fields of the PE headers (windows.h) that [GetModuleExports] reads. *)
Record IMAGE_DATA_DIRECTORY := mkDataDirectory {
  VirtualAddress : Z;
  Size : Z
}.
Record IMAGE_DOS_HEADER := mkDosHeader {
  e_magic : Z;
  e_lfanew : Z
}.
Record IMAGE_NT_HEADERS := mkNtHeaders {
  Signature : Z;
  (* OptionalHeader.DataDirectory[IMAGE_DIRECTORY_ENTRY_EXPORT] *)
  ExportDataDirectory : IMAGE_DATA_DIRECTORY
}.
Record IMAGE_EXPORT_DIRECTORY := mkExportDirectory {
  Base : Z;
  NumberOfFunctions : Z;
  NumberOfNames : Z;
  AddressOfFunctions : Z;
  AddressOfNames : Z;
  AddressOfNameOrdinals : Z
}.

Definition IMAGE_DOS_SIGNATURE : Z := 0x5A4D.
Definition IMAGE_NT_SIGNATURE : Z := 0x00004550.
Definition PAGE_READONLY : Z := 0x02.
Definition PAGE_READWRITE : Z := 0x04.

(** [static_cast<WORD>]: truncation to 16 bits. *)
Definition WORD (x : Z) : Z := x mod 2 ^ 16.

(** ** The host process *)

Class Host (W : Type) := {
  (* Hook.cpp: the trampoline patcher.  [Hook::Install(hook)] reports a
     status and the trampoline it stored in the hook. *)
  Hook_Install : Hook → W → Status * Function * W;
  Hook_Uninstall : Hook → W → Status * W;
  Hook_Enable : Hook → bool → W → W;
  (* windows.h.  [VirtualProtect address newProtect]: [None] is FALSE,
     [Some old] is TRUE with the previous protection. *)
  VirtualProtect : Z → Z → W → option Z * W;
  LoadLibraryW : path → W → HMODULE * W;
  GetModuleHandle : path → W → HMODULE;
  GetModuleHandleEx : Z → W → HMODULE;
  GetModuleFileName : HMODULE → W → path;
  FreeLibrary : HMODULE → W → W;
  (* calling the original loader through the pointer [Call] returned *)
  invoke : Function → path → W → HMODULE * W;
  (* addresses of the functions the manager takes the address of *)
  addr_LoadLibraryA : Function;
  addr_LoadLibraryW : Function;
  addr_HookLoadLibraryA : Function;
  addr_HookLoadLibraryW : Function;
  addr_GetCurrentModuleHandle : Function;
  sizeof_Function : Z;
  (* typed views of a module image *)
  dos_header_at : W → Z → IMAGE_DOS_HEADER;
  nt_headers_at : W → Z → IMAGE_NT_HEADERS;
  export_directory_at : W → Z → IMAGE_EXPORT_DIRECTORY;
  WORD_at : W → Z → Z;
  DWORD_at : W → Z → Z;
  c_str : W → Z → string;
  (* boost::filesystem::path::stem and boost::iequals *)
  stem : path → string;
  iequals : string → string → bool
}.

(** ** Process-wide state and the monad of the manager *)

Record State (W : Type) := mkState {
  sExportHookModule : HMODULE;
  sExportHookPath : path;
  sHooks : list (Hook * HookType);
  sDelayedHookPaths : list path;
  sVTableAddresses : gmap Z Z;
  (* the pointer-sized cells read and written through [Hook::Function *];
     a cell never written reads as 0 *)
  memory : gmap Z Z;
  world : W
}.
Arguments mkState {W}.
Arguments sExportHookModule {W}.
Arguments sExportHookPath {W}.
Arguments sHooks {W}.
Arguments sDelayedHookPaths {W}.
Arguments sVTableAddresses {W}.
Arguments memory {W}.
Arguments world {W}.

(** What stops a call: [std::out_of_range] thrown by [unordered_map::at],
    or a call through the null pointer [Call] returned. *)
Inductive Error := OutOfRange | NullCall.

Inductive Res (W A : Type) :=
  | Ok (a : A) (s : State W)
  | Throw (e : Error).
Arguments Ok {W A}.
Arguments Throw {W A}.

Definition M (W A : Type) : Type := State W → Res W A.

Definition ret {W A} (a : A) : M W A := fun s => Ok a s.
Definition bind {W A B} (m : M W A) (k : A → M W B) : M W B :=
  fun s => match m s with
           | Ok a s' => k a s'
           | Throw e => Throw e
           end.
Definition throw {W A} (e : Error) : M W A := fun _ => Throw e.
Definition get {W} : M W (State W) := fun s => Ok s s.
Definition modify {W} (f : State W → State W) : M W unit := fun s => Ok tt (f s).
(** A call into the host: it sees and changes the world only. *)
Definition call {W A} (f : W → A * W) : M W A :=
  fun s => let '(a, w) := f (world s) in
           Ok a (mkState (sExportHookModule s) (sExportHookPath s) (sHooks s)
                   (sDelayedHookPaths s) (sVTableAddresses s) (memory s) w).
Definition ask {W A} (f : W → A) : M W A := fun s => Ok (f (world s)) s.
Definition tell {W} (f : W → W) : M W unit := call (fun w => (tt, f w)).

Declare Scope hook_scope.
Delimit Scope hook_scope with hook.
Notation "'let*' x ':=' m 'in' k" := (bind m (fun x => k))
  (at level 10, x name, m at level 100, k at level 200) : hook_scope.
Notation "'let*' ' p ':=' m 'in' k" := (bind m (fun x => match x with p => k end))
  (at level 10, p pattern, m at level 100, k at level 200) : hook_scope.
Notation "m ';;' k" := (bind m (fun _ => k))
  (at level 100, k at level 200, right associativity) : hook_scope.
Local Open Scope hook_scope.

Definition set_sExportHookModule {W} (v : HMODULE) (s : State W) : State W :=
  mkState v (sExportHookPath s) (sHooks s) (sDelayedHookPaths s) (sVTableAddresses s) (memory s) (world s).
Definition set_sExportHookPath {W} (v : path) (s : State W) : State W :=
  mkState (sExportHookModule s) v (sHooks s) (sDelayedHookPaths s) (sVTableAddresses s) (memory s) (world s).
Definition set_sHooks {W} (v : list (Hook * HookType)) (s : State W) : State W :=
  mkState (sExportHookModule s) (sExportHookPath s) v (sDelayedHookPaths s) (sVTableAddresses s) (memory s) (world s).
Definition set_sDelayedHookPaths {W} (v : list path) (s : State W) : State W :=
  mkState (sExportHookModule s) (sExportHookPath s) (sHooks s) v (sVTableAddresses s) (memory s) (world s).
Definition set_sVTableAddresses {W} (v : gmap Z Z) (s : State W) : State W :=
  mkState (sExportHookModule s) (sExportHookPath s) (sHooks s) (sDelayedHookPaths s) v (memory s) (world s).
Definition set_memory {W} (v : gmap Z Z) (s : State W) : State W :=
  mkState (sExportHookModule s) (sExportHookPath s) (sHooks s) (sDelayedHookPaths s) (sVTableAddresses s) v (world s).
Definition set_world {W} (v : W) (s : State W) : State W :=
  mkState (sExportHookModule s) (sExportHookPath s) (sHooks s) (sDelayedHookPaths s) (sVTableAddresses s) (memory s) v.

(** [*address] and [*address = value] on a [Hook::Function *]. *)
Definition load {W} (address : Z) : M W Function :=
  fun s => Ok (default nullptr (memory s !! address)) s.
Definition store {W} (address : Z) (value : Function) : M W unit :=
  modify (fun s => set_memory (<[address := value]> (memory s)) s).

(** [sVTableAddresses.at(key)]: throws when the key is absent. *)
Definition sVTableAddresses_at {W} (key : Function) : M W Z :=
  fun s => match sVTableAddresses s !! key with
           | Some address => Ok address s
           | None => Throw OutOfRange
           end.

(** ** The manager *)

Section Manager.
Context {W : Type} {host : Host W}.

(** [GetCurrentModuleHandle]: the module that contains the manager. *)
Definition GetCurrentModuleHandle : M W HMODULE :=
  ask (GetModuleHandleEx addr_GetCurrentModuleHandle).

(** One iteration of the loop of [GetModuleExports]. *)
Definition read_export (w : W) (imageBase : Z) (imageExports : IMAGE_EXPORT_DIRECTORY) (i : Z) : ModuleExport :=
  let ordinal :=
    WORD (WORD_at w (imageBase + AddressOfNameOrdinals imageExports + 2 * i) + WORD (Base imageExports)) in
  let name := imageBase + DWORD_at w (imageBase + AddressOfNames imageExports + 4 * i) in
  let address :=
    if decide (NumberOfFunctions imageExports > 0)
    then imageBase + DWORD_at w (imageBase + AddressOfFunctions imageExports
                                  + 4 * (ordinal - WORD (Base imageExports)))
    else nullptr in
  mkExport address name ordinal.

Definition GetModuleExports (w : W) (handle : HMODULE) : list ModuleExport :=
  let imageBase := handle in
  let imageHeader := dos_header_at w imageBase in
  let imageHeaderNT := nt_headers_at w (imageBase + e_lfanew imageHeader) in
  if negb (bool_decide (e_magic imageHeader = IMAGE_DOS_SIGNATURE))
     || negb (bool_decide (Signature imageHeaderNT = IMAGE_NT_SIGNATURE))
     || bool_decide (Size (ExportDataDirectory imageHeaderNT) = 0)
  then []
  else
    let imageExports :=
      export_directory_at w (imageBase + VirtualAddress (ExportDataDirectory imageHeaderNT)) in
    let count := Z.to_nat (NumberOfNames imageExports) in
    map (fun i : nat => read_export w imageBase imageExports (Z.of_nat i)) (seq 0 count).

(** The [switch (method)] of the internal [Install]: the status and the hook
    as the strategy leaves it. *)
Definition Install_status (hook : Hook) (method : HookType) : M W (Status * Hook) :=
  match method with
  | Export => ret (Success, hook)
  | FunctionHook =>
      let* '(status, trampoline) := call (Hook_Install hook) in
      ret (status, mkHook (Target hook) (Replacement hook) trampoline)
  | VTableHook =>
      let* targetAddress := sVTableAddresses_at (Target hook) in
      let* protection := call (VirtualProtect targetAddress PAGE_READWRITE) in
      match protection with
      | Some protection =>
          store targetAddress (Replacement hook);;
          call (VirtualProtect targetAddress protection);;
          ret (Success, hook)
      | None => ret (MemoryProtectionFailure, hook)
      end
  end.

(** [bool Install(Hook::Function target, const Hook::Function replacement, HookType method)] *)
Definition Install_hook (target replacement : Function) (method : HookType) : M W bool :=
  let hook := mkHook target replacement target in
  let* '(status, hook) := Install_status hook method in
  match status with
  | Success =>
      modify (fun s => set_sHooks (sHooks s ++ [(hook, method)]) s);;
      ret true
  | _ => ret false
  end.

(** The filter of the bulk installer on a target symbol's name. *)
Definition uninteresting (name : string) : bool :=
  String.eqb name "DXGIReportAdapterConfiguration"
  || String.eqb name "DXGIDumpJournal"
  || String.prefix "DXGID3D10" name.

(** The first loop of the bulk [Install]: the (target, replacement) pairs. *)
Fixpoint find_matches (w : W) (targetExports replacementExports : list ModuleExport)
  : list (Function * Function) :=
  match targetExports with
  | [] => []
  | symbol :: rest =>
      if decide (Name symbol = nullptr ∨ Address symbol = nullptr)
      then find_matches w rest replacementExports
      else
        match find (fun it => String.eqb (c_str w (Name it)) (c_str w (Name symbol))) replacementExports with
        | Some it =>
            if uninteresting (c_str w (Name symbol))
            then find_matches w rest replacementExports
            else (Address symbol, Address it) :: find_matches w rest replacementExports
        | None => find_matches w rest replacementExports
        end
  end.

(** The second loop of the bulk [Install]: the number of hooks installed. *)
Fixpoint install_matches (matches : list (Function * Function)) (method : HookType) (counter : nat)
  : M W nat :=
  match matches with
  | [] => ret counter
  | match_ :: rest =>
      let* ok := Install_hook (fst match_) (snd match_) method in
      install_matches rest method (if ok then S counter else counter)
  end.

(** The bulk [Install] once both export tables are read. *)
Definition Install_exports (targetExports replacementExports : list ModuleExport) (method : HookType)
  : M W bool :=
  match targetExports with
  | [] => ret false
  | _ =>
      let* matches := ask (fun w => find_matches w targetExports replacementExports) in
      let* counter := install_matches matches method 0%nat in
      ret (bool_decide (counter ≠ 0%nat))
  end.

(** [bool Install(const HMODULE targetModule, const HMODULE replacementModule, HookType method)] *)
Definition Install_module (targetModule replacementModule : HMODULE) (method : HookType) : M W bool :=
  let* targetExports := ask (fun w => GetModuleExports w targetModule) in
  let* replacementExports := ask (fun w => GetModuleExports w replacementModule) in
  Install_exports targetExports replacementExports method.

(** [bool Uninstall(Hook &hook, HookType method)]: the result and the hook
    as the call leaves it. *)
Definition Uninstall_hook (hook : Hook) (method : HookType) : M W (bool * Hook) :=
  if negb (IsInstalled hook) then ret (true, hook)
  else if decide (method = Export) then ret (true, hook)
  else
    let* status :=
      match method with
      | FunctionHook => call (Hook_Uninstall hook)
      | VTableHook =>
          let* targetAddress := sVTableAddresses_at (Target hook) in
          let* protection := call (VirtualProtect targetAddress PAGE_READWRITE) in
          match protection with
          | Some protection =>
              store targetAddress (Target hook);;
              modify (fun s => set_sVTableAddresses (delete (Target hook) (sVTableAddresses s)) s);;
              call (VirtualProtect targetAddress protection);;
              ret Success
          | None => ret MemoryProtectionFailure
          end
      | Export => ret Unknown
      end in
    match status with
    | Success => ret (true, mkHook (Target hook) (Replacement hook) nullptr)
    | _ => ret (false, hook)
    end.

(** The lookup of [Find] on a table. *)
Definition find_hook (hooks : list (Hook * HookType)) (replacement : Function) : Hook :=
  match find (fun it => bool_decide (Replacement (fst it) = replacement)) hooks with
  | Some it => fst it
  | None => Hook_empty
  end.

(** [Hook Find(const Hook::Function replacement)] *)
Definition Find (replacement : Function) : M W Hook :=
  let* s := get in ret (find_hook (sHooks s) replacement).

(** [bool Install(Hook::Function target, const Hook::Function replacement)] *)
Definition Install (target replacement : Function) : M W bool :=
  if decide (target = replacement) then ret false
  else
    let* hook := Find replacement in
    if IsInstalled hook then ret (bool_decide (target = Target hook))
    else Install_hook target replacement FunctionHook.

(** [bool Install(Hook::Function vtable[], unsigned int offset, const Hook::Function replacement)] *)
Definition Install_vtable (vtable : Z) (offset : Z) (replacement : Function) : M W bool :=
  let slot := vtable + offset * sizeof_Function in
  let* protection := call (VirtualProtect slot PAGE_READONLY) in
  match protection with
  | Some protection =>
      let* target := load slot in
      let* s := get in
      (* sVTableAddresses.emplace(target, vtable + offset) *)
      let inserted := bool_decide (sVTableAddresses s !! target = None) in
      (if inserted
       then modify (fun s => set_sVTableAddresses (<[target := slot]> (sVTableAddresses s)) s)
       else ret tt);;
      call (VirtualProtect slot protection);;
      if inserted then
        let* ok := (if decide (target = replacement) then ret false
                    else Install_hook target replacement VTableHook) in
        if ok then ret true
        else
          modify (fun s => set_sVTableAddresses (delete target (sVTableAddresses s)) s);;
          ret false
      else
        (* insert.first->first == target: the key already present *)
        ret (bool_decide (target = target))
  | None => ret false
  end.

(** The loop of [Uninstall()]: every tracked hook, in table order. *)
Fixpoint Uninstall_all (hooks : list (Hook * HookType)) : M W (list (Hook * HookType)) :=
  match hooks with
  | [] => ret []
  | it :: rest =>
      let* '(_, hook) := Uninstall_hook (fst it) (snd it) in
      let* rest' := Uninstall_all rest in
      ret ((hook, snd it) :: rest')
  end.

(** [void Uninstall()] *)
Definition Uninstall : M W unit :=
  let* s := get in
  let* hooks := Uninstall_all (sHooks s) in
  modify (set_sHooks hooks);;
  modify (set_sHooks []);;
  let* s := get in
  if decide (sExportHookModule s ≠ nullptr)
  then tell (FreeLibrary (sExportHookModule s))
  else ret tt.

(** [Hook::Function Call(const Hook::Function replacement)] *)
Definition Call (replacement : Function) : M W Function :=
  let* s := get in
  (if negb (String.eqb (sExportHookPath s) "")
   then
     let* watch := Find addr_HookLoadLibraryW in
     tell (Hook_Enable watch false);;
     let* module := call (LoadLibraryW (sExportHookPath s)) in
     modify (set_sExportHookModule module);;
     let* watch := Find addr_HookLoadLibraryW in
     tell (Hook_Enable watch true);;
     if decide (module ≠ nullptr)
     then
       modify (set_sExportHookPath "");;
       let* current := GetCurrentModuleHandle in
       Install_module module current Export;;
       ret tt
     else ret tt
   else ret tt);;
  let* hook := Find replacement in
  if negb (IsValid hook) then ret nullptr
  else ret (Hook_Call hook).

(** [sDelayedHookPaths.erase(it)] for the iterator at index [i]. *)
Definition erase_at {A} (i : nat) (l : list A) : list A := take i l ++ drop (S i) l.

(** The position [std::find_if] returns in the pending list. *)
Fixpoint find_index {A} (p : A → bool) (l : list A) : option nat :=
  match l with
  | [] => None
  | x :: l' => if p x then Some 0%nat else S <$> find_index p l'
  end.

(** The body shared by [HookLoadLibraryA] and [HookLoadLibraryW]; [self] is
    the address of the hook function itself. *)
Definition HookLoadLibrary (self : Function) (lpFileName : path) : M W HMODULE :=
  let* original := Call self in
  if decide (original = nullptr) then throw NullCall
  else
    let* handle := call (invoke original lpFileName) in
    if decide (handle = nullptr) then ret nullptr
    else
      let* s := get in
      match find_index (fun it => iequals (stem it) (stem lpFileName)) (sDelayedHookPaths s) with
      | Some it =>
          let* current := GetCurrentModuleHandle in
          let* ok := Install_module handle current FunctionHook in
          (if ok
           then modify (fun s => set_sDelayedHookPaths (erase_at it (sDelayedHookPaths s)) s)
           else ret tt);;
          ret handle
      | None => ret handle
      end.

Definition HookLoadLibraryA (lpFileName : path) : M W HMODULE :=
  HookLoadLibrary addr_HookLoadLibraryA lpFileName.
Definition HookLoadLibraryW (lpFileName : path) : M W HMODULE :=
  HookLoadLibrary addr_HookLoadLibraryW lpFileName.

(** [void Register(const boost::filesystem::path &targetPath)] *)
Definition Register (targetPath : path) : M W unit :=
  Install addr_LoadLibraryA addr_HookLoadLibraryA;;
  Install addr_LoadLibraryW addr_HookLoadLibraryW;;
  let* replacementModule := GetCurrentModuleHandle in
  let* replacementPath := ask (GetModuleFileName replacementModule) in
  if iequals (stem targetPath) (stem replacementPath)
  then modify (set_sExportHookPath targetPath)
  else
    let* targetModule := ask (GetModuleHandle targetPath) in
    if decide (targetModule ≠ nullptr)
    then Install_module targetModule replacementModule FunctionHook;; ret tt
    else modify (fun s => set_sDelayedHookPaths (sDelayedHookPaths s ++ [targetPath]) s).

End Manager.

(** The state at process attach: every table empty, no export module. *)
Definition initial {W} (mem : gmap Z Z) (w : W) : State W :=
  mkState nullptr "" [] [] ∅ mem w.

(** ** A concrete host, for running the manager on examples *)

Module Mock.

Record World := mkWorld {
  self_path : string;               (* file of the module holding the manager *)
  loaded : list (string * Z);       (* modules already in the process *)
  loadable : list (string * Z);     (* modules the loader finds *)
  dos_headers : list (Z * IMAGE_DOS_HEADER);
  nt_headers : list (Z * IMAGE_NT_HEADERS);
  export_directories : list (Z * IMAGE_EXPORT_DIRECTORY);
  words : list (Z * Z);
  dwords : list (Z * Z);
  strings : list (Z * string);
  freed : list Z                    (* log of FreeLibrary calls, latest first *)
}.

Definition set_freed (v : list Z) (w : World) : World :=
  mkWorld (self_path w) (loaded w) (loadable w) (dos_headers w)
    (nt_headers w) (export_directories w) (words w) (dwords w) (strings w) v.
Definition set_self_path (v : string) (w : World) : World :=
  mkWorld v (loaded w) (loadable w) (dos_headers w)
    (nt_headers w) (export_directories w) (words w) (dwords w) (strings w) (freed w).
Definition set_loadable (v : list (string * Z)) (w : World) : World :=
  mkWorld (self_path w) (loaded w) v (dos_headers w)
    (nt_headers w) (export_directories w) (words w) (dwords w) (strings w) (freed w).

Fixpoint assoc {A} (k : Z) (l : list (Z * A)) (d : A) : A :=
  match l with
  | [] => d
  | (k', v) :: l' => if decide (k = k') then v else assoc k l' d
  end.

Fixpoint assoc_path (k : string) (l : list (string * Z)) : Z :=
  match l with
  | [] => nullptr
  | (k', v) :: l' => if String.eqb k k' then v else assoc_path k l'
  end.

Definition mem_Z (k : Z) (l : list Z) : bool := bool_decide (k ∈ l).

Definition is_separator (c : ascii) : bool :=
  Ascii.eqb c "/"%char || Ascii.eqb c "\"%char.
Definition is_dot (c : ascii) : bool := Ascii.eqb c "."%char.

Fixpoint contains (f : ascii → bool) (s : string) : bool :=
  match s with
  | EmptyString => false
  | String c s' => f c || contains f s'
  end.
Fixpoint after_last (f : ascii → bool) (s : string) : string :=
  match s with
  | EmptyString => EmptyString
  | String c s' =>
      if contains f s' then after_last f s'
      else if f c then s' else String c s'
  end.
Fixpoint before_last (f : ascii → bool) (s : string) : string :=
  match s with
  | EmptyString => EmptyString
  | String c s' =>
      if contains f s' then String c (before_last f s')
      else if f c then EmptyString else String c s'
  end.

(** The file name without its directory and its last extension. *)
Definition path_stem (p : string) : string :=
  let file := after_last is_separator p in
  if String.eqb file "." || String.eqb file ".." then file
  else before_last is_dot file.

Definition to_lower (c : ascii) : ascii :=
  let n := nat_of_ascii c in
  if (65 <=? n)%nat && (n <=? 90)%nat then ascii_of_nat (n + 32) else c.
Fixpoint lower (s : string) : string :=
  match s with
  | EmptyString => EmptyString
  | String c s' => String (to_lower c) (lower s')
  end.
Definition string_iequals (a b : string) : bool := String.eqb (lower a) (lower b).

Definition this_module : Z := 0x10000000.

(** The host whose patcher refuses the targets [refused] and whose pages
    at [write_protected] cannot be made writable. *)
Definition host_with (refused write_protected : list Z) : Host World := {|
  Hook_Install hook w :=
    if mem_Z (Target hook) refused then (PatcherFailure 1, nullptr, w)
    else (Success, Target hook + 1, w);
  Hook_Uninstall hook w := (Success, w);
  Hook_Enable hook enable w := w;
  VirtualProtect address protect w :=
    if bool_decide (protect = PAGE_READWRITE) && mem_Z address write_protected
    then (None, w) else (Some 0x20, w);
  LoadLibraryW p w := (assoc_path p (loadable w), w);
  GetModuleHandle p w := assoc_path p (loaded w);
  GetModuleHandleEx address w := this_module;
  GetModuleFileName handle w := self_path w;
  FreeLibrary handle w := set_freed (handle :: freed w) w;
  invoke f p w := (assoc_path p (loadable w), w);
  addr_LoadLibraryA := 0x70000010;
  addr_LoadLibraryW := 0x70000020;
  addr_HookLoadLibraryA := 0x10000100;
  addr_HookLoadLibraryW := 0x10000200;
  addr_GetCurrentModuleHandle := 0x10000300;
  sizeof_Function := 8;
  dos_header_at w a := assoc a (dos_headers w) (mkDosHeader 0 0);
  nt_headers_at w a := assoc a (nt_headers w) (mkNtHeaders 0 (mkDataDirectory 0 0));
  export_directory_at w a := assoc a (export_directories w) (mkExportDirectory 0 0 0 0 0 0);
  WORD_at w a := assoc a (words w) 0;
  DWORD_at w a := assoc a (dwords w) 0;
  c_str w a := assoc a (strings w) "";
  stem := path_stem;
  iequals := string_iequals
|}.

(** The host that grants every patch and every permission change. *)
Definition mock : Host World := host_with [] [].

(** A world with nothing loaded. *)
Definition quiet : World := mkWorld "C:\ReShade\ReShade64.dll" [] [] [] [] [] [] [] [] [].

(** The image of a module at [base] exporting the given (name, address)
    pairs: headers, export directory (ordinal base 1), the three export
    tables and the names. *)
Definition image (base : Z) (exports : list (string * Z)) : World :=
  let n := Z.of_nat (List.length exports) in
  mkWorld "C:\ReShade\ReShade64.dll" [] []
    [(base, mkDosHeader IMAGE_DOS_SIGNATURE 0x80)]
    [(base + 0x80, mkNtHeaders IMAGE_NT_SIGNATURE (mkDataDirectory 0x1000 40))]
    [(base + 0x1000, mkExportDirectory 1 n n 0x1100 0x1200 0x1300)]
    (imap (fun i _ => (base + 0x1300 + 2 * Z.of_nat i, Z.of_nat i)) exports)
    (imap (fun i e => (base + 0x1100 + 4 * Z.of_nat i, snd e - base)) exports
     ++ imap (fun i _ => (base + 0x1200 + 4 * Z.of_nat i, 0x2000 + 0x100 * Z.of_nat i)) exports)
    (imap (fun i e => (base + 0x2000 + 0x100 * Z.of_nat i, fst e)) exports)
    [].

(** Both worlds' modules and memory in one process. *)
Definition union (a b : World) : World :=
  mkWorld (self_path a) (loaded a ++ loaded b) (loadable a ++ loadable b)
    (dos_headers a ++ dos_headers b) (nt_headers a ++ nt_headers b)
    (export_directories a ++ export_directories b) (words a ++ words b)
    (dwords a ++ dwords b) (strings a ++ strings b) (freed a ++ freed b).

End Mock.

(** ** The bulk installer, in the words of the specification *)

Section BulkSpec.
Context {W : Type} {host : Host W}.

(** [it] exports the name [symbol] exports (case-sensitive). *)
Definition same_named (w : W) (symbol it : ModuleExport) : bool :=
  String.eqb (c_str w (Name it)) (c_str w (Name symbol)).

(** The denylist: two diagnostic entry points by name, and the family of
    entry points whose name begins with DXGID3D10. *)
Definition denylist : list string :=
  ["DXGIReportAdapterConfiguration"; "DXGIDumpJournal"].
Definition denylisted (name : string) : bool :=
  bool_decide (name ∈ denylist)
  || bool_decide (String.substring 0 9 name = "DXGID3D10").

(** A target symbol the bulk installer is to hook: name and address are not
    null, the replacement module exports the same name, and the name is not
    on the denylist. *)
Definition hookable (w : W) (replacementExports : list ModuleExport) (symbol : ModuleExport) : bool :=
  bool_decide (Name symbol ≠ nullptr) && bool_decide (Address symbol ≠ nullptr)
  && existsb (same_named w symbol) replacementExports
  && negb (denylisted (c_str w (Name symbol))).

(** The address of the first replacement export with the symbol's name. *)
Definition replacement_of (w : W) (replacementExports : list ModuleExport) (symbol : ModuleExport) : Z :=
  match find (same_named w symbol) replacementExports with
  | Some it => Address it
  | None => nullptr
  end.

(** The redirections bulk installation is expected to put in place. *)
Definition expected_hooks (w : W) (targetExports replacementExports : list ModuleExport)
  : list (Function * Function) :=
  map (fun symbol => (Address symbol, replacement_of w replacementExports symbol))
      (List.filter (hookable w replacementExports) targetExports).

(** What a table entry redirects, and how. *)
Definition redirection (it : Hook * HookType) : Function * Function * HookType :=
  (Target (fst it), Replacement (fst it), snd it).

(** What the inline strategy is expected to make of a list of redirections:
    the patcher is asked for every one of them in turn, whatever it answered
    before, and the hooks it granted are tracked, in order, each with the
    trampoline the patcher gave. *)
Fixpoint patch_all (matches : list (Function * Function)) (w : W) : list (Hook * HookType) * W :=
  match matches with
  | [] => ([], w)
  | m :: rest =>
      let '(status, trampoline, w1) := Hook_Install (mkHook (fst m) (snd m) (fst m)) w in
      let '(installed, w') := patch_all rest w1 in
      (match status with
       | Success => (mkHook (fst m) (snd m) trampoline, FunctionHook) :: installed
       | _ => installed
       end, w')
  end.

End BulkSpec.

(** ** Delayed hooks, in the words of the specification *)

Section DelayedSpec.
Context {W : Type} {host : Host W}.

(** One of the two permanent hooks on the module-loading entry points. *)
Definition load_watch_hook (it : Hook * HookType) : Prop :=
  snd it = FunctionHook
  ∧ (Replacement (fst it) = addr_HookLoadLibraryA ∨ Replacement (fst it) = addr_HookLoadLibraryW).

(** The pending path [it] has the file stem of the loaded [lpFileName],
    compared without case. *)
Definition stem_matches (lpFileName it : path) : bool :=
  iequals (stem it) (stem lpFileName).

(** The bootstrap of [Register]: the two load-watch installs. *)
Definition install_load_watch : M W bool :=
  Install addr_LoadLibraryA addr_HookLoadLibraryA;;
  Install addr_LoadLibraryW addr_HookLoadLibraryW.

(** [targetPath] names the module the manager itself lives in. *)
Definition names_own_module (targetPath : path) (w : W) : bool :=
  iequals (stem targetPath)
    (stem (GetModuleFileName (GetModuleHandleEx addr_GetCurrentModuleHandle w) w)).

End DelayedSpec.

(** ** The vtable slot table, in the words of the specification *)

Section SlotSpec.
Context {W : Type} {host : Host W}.

(** The targets of the tracked hooks that use the vtable strategy. *)
Definition vtable_targets (hooks : list (Hook * HookType)) : list Function :=
  map (fun it => Target (fst it))
      (List.filter (fun it => bool_decide (snd it = VTableHook)) hooks).

(** Every tracked vtable hook has its target captured in the slot table. *)
Definition slots_captured (s : State W) : Prop :=
  ∀ it, it ∈ sHooks s → snd it = VTableHook →
        is_Some (sVTableAddresses s !! Target (fst it)).

(** The invariant of the registry: captured slots, and no two tracked
    vtable hooks on the same original pointer. *)
Definition registry_invariant (s : State W) : Prop :=
  slots_captured s ∧ NoDup (vtable_targets (sHooks s)).

(** What can happen to the manager: its entry points, the two load-watch
    hooks called by the process, and the rest of the process running
    (memory and world change under the manager's feet). *)
Inductive Op :=
  | CallRegister (targetPath : path)
  | CallInstall (target replacement : Function)
  | CallInstall_vtable (vtable offset : Z) (replacement : Function)
  | CallUninstall
  | CallFind (replacement : Function)
  | CallCall (replacement : Function)
  | CallHookLoadLibraryA (lpFileName : path)
  | CallHookLoadLibraryW (lpFileName : path)
  | HostRuns (mem : gmap Z Z) (w : W).

Definition step (op : Op) : M W unit :=
  match op with
  | CallRegister targetPath => Register targetPath
  | CallInstall target replacement => Install target replacement;; ret tt
  | CallInstall_vtable vtable offset replacement =>
      Install_vtable vtable offset replacement;; ret tt
  | CallUninstall => Uninstall
  | CallFind replacement => Find replacement;; ret tt
  | CallCall replacement => Call replacement;; ret tt
  | CallHookLoadLibraryA lpFileName => HookLoadLibraryA lpFileName;; ret tt
  | CallHookLoadLibraryW lpFileName => HookLoadLibraryW lpFileName;; ret tt
  | HostRuns mem w => modify (fun s => set_memory mem (set_world w s))
  end.

Fixpoint run (ops : list Op) : M W unit :=
  match ops with
  | [] => ret tt
  | op :: rest => step op;; run rest
  end.

(** [s'] tracks the hooks of [s] and further hooks of other strategies,
    over the same slot table. *)
Definition extends (s s' : State W) : Prop :=
  sVTableAddresses s' = sVTableAddresses s
  ∧ ∃ installed, sHooks s' = sHooks s ++ installed
                 ∧ Forall (fun it => snd it ≠ VTableHook) installed.

End SlotSpec.

(** ** Example states *)

(** A fresh process on the quiet host. *)
Definition fresh : State Mock.World := initial ∅ Mock.quiet.

(** The registry after [Install(0x1000, 0x2000)] on the fresh process. *)
Definition hooked_0x2000 : State Mock.World :=
  set_sHooks [(mkHook 0x1000 0x2000 0x1001, FunctionHook)] fresh.

(** The scenario of the vtable slot: the cell at [0x2000] holds [0x3000]. *)
Definition slot_0x2000 : State Mock.World := initial {[ 0x2000 := 0x3000 ]} Mock.quiet.

(** The registry after [Install(vtable = 0x2000, 0, 0x4000)] on the fresh
    process, where the cell at [0x2000] holds [nullptr]. *)
Definition null_slot_hooked : State Mock.World :=
  mkState nullptr "" [(mkHook nullptr 0x4000 nullptr, VTableHook)] []
    {[ nullptr := 0x2000 ]} {[ 0x2000 := 0x4000 ]} Mock.quiet.

(** Two slots, at [0x1000] and at [0x2000], that hold the same pointer
    [0x3000]; and the registry after [Install(vtable = 0x1000, 0, 0x4000)]. *)
Definition slots_shared : State Mock.World :=
  initial {[ 0x1000 := 0x3000; 0x2000 := 0x3000 ]} Mock.quiet.
Definition slots_shared_hooked : State Mock.World :=
  mkState nullptr "" [(mkHook 0x3000 0x4000 0x3000, VTableHook)] []
    {[ 0x3000 := 0x1000 ]} (<[ 0x1000 := 0x4000 ]> {[ 0x1000 := 0x3000; 0x2000 := 0x3000 ]})
    Mock.quiet.

(** A module image with valid signatures and an empty export data directory. *)
Definition no_exports : Mock.World :=
  Mock.mkWorld "C:\ReShade\ReShade64.dll" [] []
    [(0x40000000, mkDosHeader IMAGE_DOS_SIGNATURE 0x80)]
    [(0x40000080, mkNtHeaders IMAGE_NT_SIGNATURE (mkDataDirectory 0 0))]
    [] [] [] [] [].

(** The scenario of the bulk installer: the target module at [0x10]
    exports Foo at [0x100] and Bar at [0x200], the replacement module at
    [0x800] exports Foo at [0x900] and Baz at [0x910]. *)
Definition foo_bar_baz : Mock.World :=
  Mock.union (Mock.image 0x10 [("Foo", 0x100); ("Bar", 0x200)])
             (Mock.image 0x800 [("Foo", 0x900); ("Baz", 0x910)]).

(** Target and replacement module both export Foo and three names of the
    denylist. *)
Definition foo_denylisted : Mock.World :=
  Mock.union
    (Mock.image 0x10 [("Foo", 0x100); ("DXGIDumpJournal", 0x200);
                      ("DXGID3D10CreateDevice", 0x300);
                      ("DXGIReportAdapterConfiguration", 0x400)])
    (Mock.image 0x800 [("Foo", 0x900); ("DXGIDumpJournal", 0x910);
                       ("DXGID3D10CreateDevice", 0x920);
                       ("DXGIReportAdapterConfiguration", 0x930)]).

(** A process whose loader finds DXGI.DLL at [0x50000000]; it and the
    manager's module both export CreateDXGIFactory and DXGIDumpJournal. *)
Definition dxgi_world : Mock.World :=
  Mock.set_loadable [("DXGI.DLL", 0x50000000)]
    (Mock.union
       (Mock.image 0x50000000 [("CreateDXGIFactory", 0x50003000); ("DXGIDumpJournal", 0x50003100)])
       (Mock.image Mock.this_module
          [("CreateDXGIFactory", 0x10003000); ("DXGIDumpJournal", 0x10003100)])).

Definition dxgi_path : string := "C:\Windows\System32\dxgi.dll".

(** The two load-watch hooks as the granting patcher installs them. *)
Definition load_watch_hooks : list (Hook * HookType) :=
  [(mkHook 0x70000010 0x10000100 0x70000011, FunctionHook);
   (mkHook 0x70000020 0x10000200 0x70000021, FunctionHook)].

(** After [Register(dxgi_path)] in that process: watched, pending. *)
Definition dxgi_pending : State Mock.World :=
  mkState nullptr "" load_watch_hooks [dxgi_path] ∅ ∅ dxgi_world.

(** After the load-watch hook saw DXGI.DLL loaded: hooked, no longer pending. *)
Definition dxgi_hooked : State Mock.World :=
  mkState nullptr ""
    (load_watch_hooks ++ [(mkHook 0x50003000 0x10003000 0x50003001, FunctionHook)])
    [] ∅ ∅ dxgi_world.

(** The slot scenario after [Install(vtable = 0x2000, 0, 0x4000)]. *)
Definition slot_hooked : State Mock.World :=
  mkState nullptr "" [(mkHook 0x3000 0x4000 0x3000, VTableHook)] []
    {[ 0x3000 := 0x2000 ]} {[ 0x2000 := 0x4000 ]} Mock.quiet.

(** A process where the manager's module is the d3d9.dll of the game and
    the loader finds the system's d3d9.dll at [0x60000000]. *)
Definition d3d9_path : string := "C:\Windows\System32\d3d9.dll".
Definition d3d9_world : Mock.World :=
  Mock.set_self_path "C:\Game\d3d9.dll"
    (Mock.set_loadable [(d3d9_path, 0x60000000)] Mock.quiet).

(** After [Register(d3d9_path)] and a first [Call]: the export module is
    loaded, its handle kept in [sExportHookModule]. *)
Definition d3d9_loaded : State Mock.World :=
  mkState 0x60000000 "" load_watch_hooks [] ∅ ∅ d3d9_world.

(** After [Uninstall()], and after a second [Uninstall()]. *)
Definition d3d9_uninstalled : State Mock.World :=
  mkState 0x60000000 "" [] [] ∅ ∅ (Mock.set_freed [0x60000000] d3d9_world).
Definition d3d9_uninstalled_twice : State Mock.World :=
  mkState 0x60000000 "" [] [] ∅ ∅ (Mock.set_freed [0x60000000; 0x60000000] d3d9_world).

(** ** Hooks installed one by one, in the words of the specification *)

Section UniqueSpec.
Context {W : Type} {host : Host W}.

(** The contract of the patcher on success: the trampoline it reports is
    not null. *)
Definition patcher_sets_trampoline : Prop :=
  ∀ hook w, match Hook_Install hook w with
            | (Success, trampoline, _) => trampoline ≠ nullptr
            | _ => True
            end.

(** Every tracked hook is an installed inline hook, no two share a
    replacement, and no export module is deferred. *)
Definition replacements_unique (s : State W) : Prop :=
  NoDup (map (fun it => Replacement (fst it)) (sHooks s))
  ∧ Forall (fun it => IsInstalled (fst it) = true ∧ snd it = FunctionHook) (sHooks s)
  ∧ sExportHookPath s = "".

(** The operations that install pair by pair only. *)
Definition pairwise (op : @Op W) : Prop :=
  match op with
  | CallInstall _ _ | CallUninstall | CallFind _ | CallCall _ | HostRuns _ _ => True
  | _ => False
  end.

End UniqueSpec.

(** The granting host with a patcher whose trampolines are never null. *)
Definition careful_host : Host Mock.World := {|
  Hook_Install hook w := (Success, Z.abs (Target hook) + 1, w);
  Hook_Uninstall := Hook_Uninstall (Host := Mock.mock);
  Hook_Enable := Hook_Enable (Host := Mock.mock);
  VirtualProtect := VirtualProtect (Host := Mock.mock);
  LoadLibraryW := LoadLibraryW (Host := Mock.mock);
  GetModuleHandle := GetModuleHandle (Host := Mock.mock);
  GetModuleHandleEx := GetModuleHandleEx (Host := Mock.mock);
  GetModuleFileName := GetModuleFileName (Host := Mock.mock);
  FreeLibrary := FreeLibrary (Host := Mock.mock);
  invoke := invoke (Host := Mock.mock);
  addr_LoadLibraryA := addr_LoadLibraryA (Host := Mock.mock);
  addr_LoadLibraryW := addr_LoadLibraryW (Host := Mock.mock);
  addr_HookLoadLibraryA := addr_HookLoadLibraryA (Host := Mock.mock);
  addr_HookLoadLibraryW := addr_HookLoadLibraryW (Host := Mock.mock);
  addr_GetCurrentModuleHandle := addr_GetCurrentModuleHandle (Host := Mock.mock);
  sizeof_Function := sizeof_Function (Host := Mock.mock);
  dos_header_at := dos_header_at (Host := Mock.mock);
  nt_headers_at := nt_headers_at (Host := Mock.mock);
  export_directory_at := export_directory_at (Host := Mock.mock);
  WORD_at := WORD_at (Host := Mock.mock);
  DWORD_at := DWORD_at (Host := Mock.mock);
  c_str := c_str (Host := Mock.mock);
  stem := stem (Host := Mock.mock);
  iequals := iequals (Host := Mock.mock)
|}.

(** The table entries the export strategy makes of a list of matches: the
    trampoline of each is its target. *)
Definition export_hooks (matches : list (Function * Function)) : list (Hook * HookType) :=
  map (fun m => (mkHook (fst m) (snd m) (fst m), Export)) matches.

(** Target and replacement module both export Foo and Bar. *)
Definition foo_bar_both : Mock.World :=
  Mock.union (Mock.image 0x10 [("Foo", 0x100); ("Bar", 0x200)])
             (Mock.image 0x800 [("Foo", 0x900); ("Bar", 0x910)]).

(** The d3d9 process with the images of both modules: the system module
    and the manager's module export Direct3DCreate9. *)
Definition d3d9_images : Mock.World :=
  Mock.set_self_path "C:\Game\d3d9.dll"
    (Mock.set_loadable [(d3d9_path, 0x60000000)]
       (Mock.union (Mock.image 0x60000000 [("Direct3DCreate9", 0x60003000)])
                   (Mock.image Mock.this_module [("Direct3DCreate9", 0x10003000)]))).

(** After [Register(d3d9_path)] there: watched, the export module deferred. *)
Definition d3d9_deferred : State Mock.World :=
  mkState nullptr d3d9_path load_watch_hooks [] ∅ ∅ d3d9_images.

(** After the first [Call]: the module loaded, its export tracked. *)
Definition d3d9_resolved : State Mock.World :=
  mkState 0x60000000 ""
    (load_watch_hooks ++ [(mkHook 0x60003000 0x10003000 0x60003000, Export)])
    [] ∅ ∅ d3d9_images.

(** A deferred export module that the loader does not find. *)
Definition d3d9_missing : State Mock.World :=
  mkState nullptr d3d9_path load_watch_hooks [] ∅ ∅ Mock.quiet.

(** A process in which dxgi.dll is already loaded. *)
Definition dxgi_loaded_world : Mock.World :=
  Mock.mkWorld (Mock.self_path dxgi_world) [(dxgi_path, 0x50000000)] (Mock.loadable dxgi_world)
    (Mock.dos_headers dxgi_world) (Mock.nt_headers dxgi_world)
    (Mock.export_directories dxgi_world) (Mock.words dxgi_world) (Mock.dwords dxgi_world)
    (Mock.strings dxgi_world) [].

(** The slot scenario with two hooks stacked on the slot at [0x2000]. *)
Definition slot_stacked : State Mock.World :=
  mkState nullptr ""
    [(mkHook 0x3000 0x4000 0x3000, VTableHook); (mkHook 0x4000 0x5000 0x4000, VTableHook)] []
    {[ 0x3000 := 0x2000; 0x4000 := 0x2000 ]} {[ 0x2000 := 0x5000 ]} Mock.quiet.

(** An image whose export directory has one name and no function. *)
Definition names_only : Mock.World :=
  Mock.mkWorld "C:\ReShade\ReShade64.dll" [] []
    [(0x40000000, mkDosHeader IMAGE_DOS_SIGNATURE 0x80)]
    [(0x40000080, mkNtHeaders IMAGE_NT_SIGNATURE (mkDataDirectory 0x1000 40))]
    [(0x40001000, mkExportDirectory 1 0 1 0x1100 0x1200 0x1300)]
    [(0x40001300, 0)] [(0x40001200, 0x2000)] [(0x40002000, "Foo")] [].

(** * Properties *)

Section Registry.
Context {W : Type} {host : Host W}.
Implicit Types (s : State W) (hooks : list (Hook * HookType)) (t r : Z).

Lemma find_hook_app hooks hooks' r :
  find_hook (hooks ++ hooks') r =
    match find (fun it => bool_decide (Replacement (fst it) = r)) hooks with
    | Some it => fst it
    | None => find_hook hooks' r
    end.
Proof.
  unfold find_hook. induction hooks as [|it hooks IH]; simpl; [done|].
  destruct (bool_decide _); [done|]. exact IH.
Qed.

Lemma find_hook_untracked hooks r :
  (∀ it, it ∈ hooks → Replacement (fst it) = r → IsInstalled (fst it) = true) →
  IsInstalled (find_hook hooks r) = false →
  find (fun it => bool_decide (Replacement (fst it) = r)) hooks = None.
Proof.
  intros Hall Hnot. unfold find_hook in Hnot.
  destruct (find _ hooks) as [it|] eqn:Hfind; [|done].
  apply find_some in Hfind as [Hin Hr]. apply bool_decide_eq_true in Hr.
  apply list_elem_of_In in Hin. rewrite (Hall it Hin Hr) in Hnot. done.
Qed.

(** What the internal [Install] does with the inline-hook strategy. *)
Lemma Install_hook_FunctionHook s t r :
  Install_hook t r FunctionHook s =
    match Hook_Install (mkHook t r t) (world s) with
    | (Success, trampoline, w) =>
        Ok true (set_sHooks (sHooks s ++ [(mkHook t r trampoline, FunctionHook)]) (set_world w s))
    | (_, _, w) => Ok false (set_world w s)
    end.
Proof.
  unfold Install_hook, Install_status, bind, call, ret, modify; simpl.
  destruct (Hook_Install _ _) as [[status trampoline] w]; simpl.
  destruct status; reflexivity.
Qed.

Lemma Install_unfold s t r :
  Install t r s =
    if decide (t = r) then Ok false s
    else if IsInstalled (find_hook (sHooks s) r)
         then Ok (bool_decide (t = Target (find_hook (sHooks s) r))) s
         else Install_hook t r FunctionHook s.
Proof.
  unfold Install, Find, bind, get, ret.
  destruct (decide (t = r)); [done|].
  destruct (IsInstalled _); done.
Qed.

(** When the public [Install] answers true: the hook [Find] has for the
    replacement is installed on the same target, or it is not installed and
    the patcher grants the patch. *)
Lemma Install_true_iff s t r b s1 :
  t ≠ r →
  Install t r s = Ok b s1 →
  b = true ↔
    (IsInstalled (find_hook (sHooks s) r) = true ∧ Target (find_hook (sHooks s) r) = t)
    ∨ (IsInstalled (find_hook (sHooks s) r) = false
       ∧ fst (fst (Hook_Install (mkHook t r t) (world s))) = Success).
Proof.
  intros Hne. rewrite Install_unfold. destruct (decide (t = r)) as [|_]; [done|].
  destruct (IsInstalled (find_hook (sHooks s) r)) eqn:Hinst.
  - intros [= <- <-]. rewrite bool_decide_eq_true. split.
    + intros ->. by left.
    + by intros [[_ <-]|[? _]].
  - rewrite Install_hook_FunctionHook.
    destruct (Hook_Install _ _) as [[status trampoline] w]. simpl.
    destruct status; intros [= <- <-]; (split; [try done; intros _; by right|]);
      by intros [[? _]|[_ ?]].
Qed.

(** The state a successful [Install(t, r)] leaves, when no hook tracked
    for [r] is left without its trampoline: [Find(r)] has target [t]. *)
Lemma Install_true_Find s t r s1 :
  (∀ it, it ∈ sHooks s → Replacement (fst it) = r → IsInstalled (fst it) = true) →
  Install t r s = Ok true s1 →
  Target (find_hook (sHooks s1) r) = t ∧ Replacement (find_hook (sHooks s1) r) = r.
Proof.
  intros Hall. rewrite Install_unfold. destruct (decide (t = r)) as [|_]; [done|].
  destruct (IsInstalled (find_hook (sHooks s) r)) eqn:Hinst.
  - intros [= Heq%bool_decide_eq_true <-]. split; [done|].
    unfold find_hook in *. destruct (find _ (sHooks s)) as [it|] eqn:Hfind; [|done].
    apply find_some in Hfind as [_ Hr]. by apply bool_decide_eq_true in Hr.
  - rewrite Install_hook_FunctionHook.
    pose proof (find_hook_untracked _ _ Hall Hinst) as Hnone.
    destruct (Hook_Install _ _) as [[status trampoline] w].
    destruct status; intros [= <-]. simpl.
    rewrite find_hook_app, Hnone. unfold find_hook; simpl.
    by rewrite bool_decide_eq_true_2.
Qed.

(** What a failed [Install(t, r)] leaves: the table as it was. *)
Lemma Install_false_keeps s t r s1 :
  Install t r s = Ok false s1 → sHooks s1 = sHooks s.
Proof.
  rewrite Install_unfold. destruct (decide (t = r)) as [|_]; [by intros [= <-]|].
  destruct (IsInstalled (find_hook (sHooks s) r)); [by intros [= _ <-]|].
  rewrite Install_hook_FunctionHook.
  destruct (Hook_Install _ _) as [[status trampoline] w].
  by destruct status; intros [= <-].
Qed.

Lemma Install_returns s t r : ∃ b s1, Install t r s = Ok b s1.
Proof.
  rewrite Install_unfold. destruct (decide (t = r)); [by eexists _, _|].
  destruct (IsInstalled _); [by eexists _, _|].
  rewrite Install_hook_FunctionHook.
  destruct (Hook_Install _ _) as [[status trampoline] w].
  destruct status; by eexists _, _.
Qed.

(** C1 (as amended): for [t != r], [Install(t, r)] always returns.  It
    returns true exactly when the hook [Find(r)] had was installed with
    target [t], or was not installed and the patcher granted the patch of
    [t].  When it returns true from a table whose hooks for [r] are all
    installed, [Find(r)] then yields a hook with target [t] and replacement
    [r]; when it returns false, the table and so the answer of [Find(r)] are
    what they were. *)
Theorem Install_then_Find s t r :
  t ≠ r →
  ∃ b s1, Install t r s = Ok b s1
    ∧ (b = true ↔
         (IsInstalled (find_hook (sHooks s) r) = true ∧ Target (find_hook (sHooks s) r) = t)
         ∨ (IsInstalled (find_hook (sHooks s) r) = false
            ∧ fst (fst (Hook_Install (mkHook t r t) (world s))) = Success))
    ∧ (b = true →
       (∀ it, it ∈ sHooks s → Replacement (fst it) = r → IsInstalled (fst it) = true) →
       ∃ hook, Find r s1 = Ok hook s1 ∧ Target hook = t ∧ Replacement hook = r)
    ∧ (b = false → sHooks s1 = sHooks s ∧ Find r s1 = Ok (find_hook (sHooks s) r) s1).
Proof.
  intros Hne. destruct (Install_returns s t r) as (b & s1 & Hrun).
  exists b, s1. split; [done|]. split; [by apply (Install_true_iff s t r b s1)|]. split.
  - intros -> Hall. exists (find_hook (sHooks s1) r). split; [done|].
    by apply (Install_true_Find s).
  - intros ->. pose proof (Install_false_keeps _ _ _ _ Hrun) as Hkeep.
    split; [done|]. unfold Find, bind, get, ret. by rewrite Hkeep.
Qed.

(** C3 (as amended): for [t != r], from a table whose hooks for [r] are all
    installed and over a patcher whose granted patch of [t] comes with a
    trampoline, [Install(t, r)] returns true exactly when the hook [Find(r)]
    had was installed with target [t], or was not installed and the patcher
    granted the patch; and then installing the same pair again succeeds and
    changes nothing: not the table, not any other part of the state. *)
Theorem Install_twice_idempotent s t r :
  t ≠ r →
  (∀ it, it ∈ sHooks s → Replacement (fst it) = r → IsInstalled (fst it) = true) →
  (∀ trampoline w,
     Hook_Install (mkHook t r t) (world s) = (Success, trampoline, w) → trampoline ≠ nullptr) →
  ∃ b s1, Install t r s = Ok b s1
    ∧ (b = true ↔
         (IsInstalled (find_hook (sHooks s) r) = true ∧ Target (find_hook (sHooks s) r) = t)
         ∨ (IsInstalled (find_hook (sHooks s) r) = false
            ∧ fst (fst (Hook_Install (mkHook t r t) (world s))) = Success))
    ∧ (b = true → Install t r s1 = Ok true s1).
Proof.
  intros Hne Hall Htrampoline. destruct (Install_returns s t r) as (b & s1 & Hrun).
  exists b, s1. split; [done|]. split; [by apply (Install_true_iff s t r b s1)|].
  intros ->. destruct (Install_true_Find s t r s1 Hall Hrun) as [Htarget _].
  rewrite Install_unfold. destruct (decide (t = r)) as [|_]; [done|].
  assert (Hinst : IsInstalled (find_hook (sHooks s1) r) = true).
  { rewrite Install_unfold in Hrun. destruct (decide (t = r)) as [|_]; [done|].
    destruct (IsInstalled (find_hook (sHooks s) r)) eqn:Hold.
    - by injection Hrun as _ <-.
    - rewrite Install_hook_FunctionHook in Hrun.
      pose proof (find_hook_untracked _ _ Hall Hold) as Hnone.
      destruct (Hook_Install _ _) as [[status trampoline] w] eqn:Hpatch.
      destruct status; try done. injection Hrun as <-. simpl.
      rewrite find_hook_app, Hnone. unfold find_hook; simpl.
      rewrite bool_decide_eq_true_2 by done. simpl.
      apply bool_decide_eq_true_2. by apply (Htrampoline trampoline w). }
  rewrite Hinst. f_equal. by apply bool_decide_eq_true_2.
Qed.


(** [Install(t, t)] always fails and never touches the state. *)
Theorem Install_same_address_fails s t : Install t t s = Ok false s.
Proof. rewrite Install_unfold. by destruct (decide (t = t)). Qed.

(** [Find] on a replacement no tracked hook has answers the empty hook,
    which is neither valid nor installed, and leaves the state alone. *)
Theorem Find_untracked s r :
  (∀ it, it ∈ sHooks s → Replacement (fst it) ≠ r) →
  Find r s = Ok Hook_empty s
  ∧ IsValid Hook_empty = false ∧ IsInstalled Hook_empty = false.
Proof.
  intros Hnone. split; [|done]. unfold Find, bind, get, ret, find_hook.
  destruct (find _ (sHooks s)) as [it|] eqn:Hfind; [|done].
  apply find_some in Hfind as [Hin Hr]. apply bool_decide_eq_true in Hr.
  apply list_elem_of_In in Hin. by destruct (Hnone it Hin).
Qed.

End Registry.
(** The amended C1 on the fresh process: [Install(0x1000, 0x2000)]. *)
Lemma Install_then_Find_witness :
  0x1000 ≠ 0x2000 ∧
  ∃ b s1, Install (host := Mock.mock) 0x1000 0x2000 fresh = Ok b s1
    ∧ (b = true ↔
         (IsInstalled (find_hook (sHooks fresh) 0x2000) = true
          ∧ Target (find_hook (sHooks fresh) 0x2000) = 0x1000)
         ∨ (IsInstalled (find_hook (sHooks fresh) 0x2000) = false
            ∧ fst (fst (Hook_Install (Host := Mock.mock) (mkHook 0x1000 0x2000 0x1000)
                          (world fresh))) = Success))
    ∧ (b = true →
       (∀ it, it ∈ sHooks fresh → Replacement (fst it) = 0x2000 → IsInstalled (fst it) = true) →
       ∃ hook, Find 0x2000 s1 = Ok hook s1 ∧ Target hook = 0x1000 ∧ Replacement hook = 0x2000)
    ∧ (b = false → sHooks s1 = sHooks fresh
         ∧ Find 0x2000 s1 = Ok (find_hook (sHooks fresh) 0x2000) s1).
Proof.
  split; [done|].
  by apply (Install_then_Find (host := Mock.mock) fresh 0x1000 0x2000).
Defined.

(** C1 as stated fails: on the fresh process [Install(0x1000, 0x2000)]
    succeeds; then [Install(0x3000, 0x2000)], with [0x3000 != 0x2000], is
    refused and [Find(0x2000)] still answers the hook of target [0x1000]. *)
Lemma Install_then_Find_counterexample :
  Install (host := Mock.mock) 0x1000 0x2000 fresh = Ok true hooked_0x2000
  ∧ 0x3000 ≠ 0x2000
  ∧ Install (host := Mock.mock) 0x3000 0x2000 hooked_0x2000 = Ok false hooked_0x2000
  ∧ Find 0x2000 hooked_0x2000 = Ok (mkHook 0x1000 0x2000 0x1001) hooked_0x2000
  ∧ Target (mkHook 0x1000 0x2000 0x1001) ≠ 0x3000.
Proof. repeat split; done. Qed.

Lemma Find_untracked_witness :
  Find 0x2000 fresh = Ok Hook_empty fresh
  ∧ IsValid Hook_empty = false ∧ IsInstalled Hook_empty = false.
Proof.
  apply (Find_untracked fresh 0x2000).
  intros it Hin. by apply elem_of_nil in Hin.
Defined.

(** The amended C3 on the fresh process: [Install(0x1000, 0x2000)], twice. *)
Lemma Install_twice_idempotent_witness :
  Install (host := Mock.mock) 0x1000 0x2000 fresh = Ok true hooked_0x2000
  ∧ Install (host := Mock.mock) 0x1000 0x2000 hooked_0x2000 = Ok true hooked_0x2000
  ∧ ∃ b s1, Install (host := Mock.mock) 0x1000 0x2000 fresh = Ok b s1
      ∧ (b = true ↔
           (IsInstalled (find_hook (sHooks fresh) 0x2000) = true
            ∧ Target (find_hook (sHooks fresh) 0x2000) = 0x1000)
           ∨ (IsInstalled (find_hook (sHooks fresh) 0x2000) = false
              ∧ fst (fst (Hook_Install (Host := Mock.mock) (mkHook 0x1000 0x2000 0x1000)
                            (world fresh))) = Success))
      ∧ (b = true → Install (host := Mock.mock) 0x1000 0x2000 s1 = Ok true s1).
Proof.
  split; [reflexivity|]. split; [reflexivity|].
  apply (Install_twice_idempotent (host := Mock.mock) fresh 0x1000 0x2000).
  - done.
  - intros it Hin. by apply elem_of_nil in Hin.
  - intros trampoline w [= <- _]. done.
Defined.

(** C3 as stated fails.  A vtable hook on a slot that holds [nullptr] is
    tracked without a trampoline; [Install(0x1000, 0x4000)] then succeeds
    and appends a hook, and the same call succeeds again and appends
    another: the table grows from one entry to two to three. *)
Lemma Install_twice_idempotent_counterexample :
  Install_vtable (host := Mock.mock) 0x2000 0 0x4000 fresh = Ok true null_slot_hooked
  ∧ sHooks null_slot_hooked = [(mkHook nullptr 0x4000 nullptr, VTableHook)]
  ∧ Install (host := Mock.mock) 0x1000 0x4000 null_slot_hooked
    = Ok true (set_sHooks [(mkHook nullptr 0x4000 nullptr, VTableHook);
                           (mkHook 0x1000 0x4000 0x1001, FunctionHook)] null_slot_hooked)
  ∧ Install (host := Mock.mock) 0x1000 0x4000
      (set_sHooks [(mkHook nullptr 0x4000 nullptr, VTableHook);
                   (mkHook 0x1000 0x4000 0x1001, FunctionHook)] null_slot_hooked)
    = Ok true (set_sHooks [(mkHook nullptr 0x4000 nullptr, VTableHook);
                           (mkHook 0x1000 0x4000 0x1001, FunctionHook);
                           (mkHook 0x1000 0x4000 0x1001, FunctionHook)] null_slot_hooked).
Proof. repeat split; reflexivity. Qed.



Section ExportTable.
Context {W : Type} {host : Host W}.

(** C9: a module whose DOS or NT signature is wrong, whose export data
    directory is empty, or whose export directory names nothing, parses to
    the empty sequence; the bulk installer then skips it (answers false,
    state untouched) without throwing. *)
Theorem GetModuleExports_empty (w : W) (handle : HMODULE) :
  let imageHeader := dos_header_at w handle in
  let imageHeaderNT := nt_headers_at w (handle + e_lfanew imageHeader) in
  let imageExports :=
    export_directory_at w (handle + VirtualAddress (ExportDataDirectory imageHeaderNT)) in
  e_magic imageHeader ≠ IMAGE_DOS_SIGNATURE
  ∨ Signature imageHeaderNT ≠ IMAGE_NT_SIGNATURE
  ∨ Size (ExportDataDirectory imageHeaderNT) = 0
  ∨ NumberOfNames imageExports = 0 →
  GetModuleExports w handle = []
  ∧ ∀ (s : State W) replacementModule method,
      world s = w → Install_module handle replacementModule method s = Ok false s.
Proof.
  intros imageHeader imageHeaderNT imageExports Hbad.
  assert (Hnil : GetModuleExports w handle = []).
  { unfold GetModuleExports. fold imageHeader. fold imageHeaderNT. fold imageExports.
    destruct Hbad as [H|[H|[H|H]]].
    - by rewrite (bool_decide_eq_false_2 _ H).
    - rewrite (bool_decide_eq_false_2 _ H). by rewrite orb_true_r.
    - rewrite (bool_decide_eq_true_2 _ H). by rewrite orb_true_r.
    - rewrite H. simpl. by destruct (_ || _). }
  split; [done|]. intros s replacementModule method <-.
  unfold Install_module, bind, ask. by rewrite Hnil.
Qed.

End ExportTable.

Section VTable.
Context {W : Type} {host : Host W}.
Implicit Types (s : State W).

Ltac run_monad :=
  unfold Install_vtable, Install_hook, Install_status, Uninstall_hook, Uninstall,
    sVTableAddresses_at, load, store, tell, call, bind, ret, modify, get,
    set_sHooks, set_sVTableAddresses, set_memory, set_world; simpl.

(** C8: the slot is registered (read-only probe granted, original pointer
    not yet captured, replacement different from it) and the request for
    write access is refused: the strategy reports [MemoryProtectionFailure],
    the public [Install] answers false, and the state it leaves differs from
    the one it found in the host's world only; in particular the hook table
    and the slot table are the ones before the call. *)
Theorem Install_vtable_protection_failure s vtable offset q protection restored w1 w2 w3 :
  let slot := vtable + offset * sizeof_Function in
  let p := default nullptr (memory s !! slot) in
  let registered := set_sVTableAddresses (<[p := slot]> (sVTableAddresses s)) (set_world w2 s) in
  VirtualProtect slot PAGE_READONLY (world s) = (Some protection, w1) →
  VirtualProtect slot protection w1 = (restored, w2) →
  VirtualProtect slot PAGE_READWRITE w2 = (None, w3) →
  sVTableAddresses s !! p = None →
  p ≠ q →
  Install_status (mkHook p q p) VTableHook registered
    = Ok (MemoryProtectionFailure, mkHook p q p) (set_world w3 registered)
  ∧ Install_vtable vtable offset q s = Ok false (set_world w3 s)
  ∧ sHooks (set_world w3 s) = sHooks s
  ∧ sVTableAddresses (set_world w3 s) = sVTableAddresses s.
Proof.
  intros slot p registered Hprobe Hrestore Hwrite Hfresh Hne.
  split; [|split; [|done]].
  - run_monad. rewrite lookup_insert_eq. simpl. rewrite Hwrite. reflexivity.
  - run_monad. fold slot. rewrite Hprobe. simpl. fold p.
    rewrite (bool_decide_eq_true_2 _ Hfresh). simpl. rewrite Hrestore. simpl.
    destruct (decide (p = q)) as [|_]; [done|]. simpl.
    rewrite lookup_insert_eq. simpl. rewrite Hwrite. simpl.
    unfold set_sVTableAddresses, set_world; simpl.
    by rewrite delete_insert_id.
Qed.

(** C7 (as amended): a slot holding the original pointer [p] (not null, not
    yet a key of the slot table), permission changes on the slot granted:
    [Install] with a
    replacement [q != p] succeeds, the slot then holds [q] and the hook
    [(p, q)] is tracked with the vtable strategy; uninstalling that hook
    writes [p] back into the slot and removes the slot-table entry of [p].
    When no other hook was tracked, the global [Uninstall()] does exactly
    that. *)
Theorem vtable_round_trip s vtable offset q :
  let slot := vtable + offset * sizeof_Function in
  let p := default nullptr (memory s !! slot) in
  p ≠ nullptr →
  p ≠ q →
  sVTableAddresses s !! p = None →
  (∀ protect w, ∃ old w', VirtualProtect slot protect w = (Some old, w')) →
  ∃ s1 s2,
    Install_vtable vtable offset q s = Ok true s1
    ∧ memory s1 !! slot = Some q
    ∧ sVTableAddresses s1 !! p = Some slot
    ∧ sHooks s1 = sHooks s ++ [(mkHook p q p, VTableHook)]
    ∧ Uninstall_hook (mkHook p q p) VTableHook s1 = Ok (true, mkHook p q nullptr) s2
    ∧ memory s2 !! slot = Some p
    ∧ sVTableAddresses s2 !! p = None
    ∧ (sHooks s = [] →
       ∃ s3, Uninstall s1 = Ok tt s3 ∧ memory s3 !! slot = Some p
             ∧ sVTableAddresses s3 !! p = None ∧ sHooks s3 = []).
Proof.
  intros slot p Hnull Hne Hfresh Hvp.
  destruct (Hvp PAGE_READONLY (world s)) as (o1 & w1 & E1).
  destruct (Hvp o1 w1) as (o2 & w2 & E2).
  destruct (Hvp PAGE_READWRITE w2) as (o3 & w3 & E3).
  destruct (Hvp o3 w3) as (o4 & w4 & E4).
  destruct (Hvp PAGE_READWRITE w4) as (o5 & w5 & E5).
  destruct (Hvp o5 w5) as (o6 & w6 & E6).
  assert (Hinstalled : IsInstalled (mkHook p q p) = true)
    by (by apply bool_decide_eq_true_2).
  eexists _, _. split.
  { run_monad. fold slot. rewrite E1. simpl. fold p.
    rewrite (bool_decide_eq_true_2 _ Hfresh). simpl. rewrite E2. simpl.
    destruct (decide (p = q)) as [|_]; [done|]. simpl.
    rewrite lookup_insert_eq. simpl. rewrite E3. simpl. rewrite E4. simpl.
    reflexivity. }
  simpl. split; [by rewrite lookup_insert_eq|].
  split; [by rewrite lookup_insert_eq|]. split; [done|]. split.
  { unfold Uninstall_hook. rewrite Hinstalled. simpl.
    run_monad. rewrite lookup_insert_eq. simpl. rewrite E5. simpl. rewrite E6. simpl.
    reflexivity. }
  simpl. split; [by rewrite lookup_insert_eq|].
  split; [by rewrite lookup_delete_eq|].
  intros Hempty. rewrite Hempty.
  assert (Hrun : ∀ keep : bool,
    (if keep then sExportHookModule s ≠ nullptr else ¬ sExportHookModule s ≠ nullptr) →
    ∃ s3, Uninstall
        (set_sHooks ([] ++ [(mkHook p q p, VTableHook)])
           (set_world w4 (set_memory (<[slot := q]> (memory s))
              (set_sVTableAddresses (<[p := slot]> (sVTableAddresses s)) s)))) = Ok tt s3
      ∧ memory s3 !! slot = Some p ∧ sVTableAddresses s3 !! p = None ∧ sHooks s3 = []).
  { intros keep Hkeep. destruct keep; (eexists; split;
      [ unfold Uninstall; run_monad; unfold Uninstall_hook; rewrite Hinstalled; simpl;
        run_monad; rewrite lookup_insert_eq; simpl; rewrite E5; simpl; rewrite E6; simpl;
        destruct (decide (sExportHookModule s ≠ nullptr)); try contradiction; simpl; reflexivity
      | simpl; (split; [by rewrite lookup_insert_eq|]);
        (split; [by rewrite lookup_delete_eq|done]) ]). }
  destruct (decide (sExportHookModule s ≠ nullptr)) as [Hm|Hm].
  - apply (Hrun true Hm).
  - apply (Hrun false Hm).
Qed.

End VTable.

(** C9 on a module with valid signatures and no export directory. *)
Lemma GetModuleExports_empty_witness :
  GetModuleExports (host := Mock.mock) no_exports 0x40000000 = []
  ∧ ∀ (s : State Mock.World) replacementModule method,
      world s = no_exports →
      Install_module (host := Mock.mock) 0x40000000 replacementModule method s = Ok false s.
Proof.
  apply (GetModuleExports_empty (host := Mock.mock) no_exports 0x40000000).
  right. right. left. reflexivity.
Defined.

(** C8 on the slot scenario, the page of the slot refusing write access. *)
Lemma Install_vtable_protection_failure_witness :
  Install_status (host := Mock.host_with [] [0x2000]) (mkHook 0x3000 0x4000 0x3000) VTableHook
      (set_sVTableAddresses {[ 0x3000 := 0x2000 ]} slot_0x2000)
    = Ok (MemoryProtectionFailure, mkHook 0x3000 0x4000 0x3000)
         (set_sVTableAddresses {[ 0x3000 := 0x2000 ]} slot_0x2000)
  ∧ Install_vtable (host := Mock.host_with [] [0x2000]) 0x2000 0 0x4000 slot_0x2000
    = Ok false slot_0x2000
  ∧ sHooks slot_0x2000 = []
  ∧ sVTableAddresses slot_0x2000 = ∅.
Proof.
  apply (Install_vtable_protection_failure (host := Mock.host_with [] [0x2000])
           slot_0x2000 0x2000 0 0x4000 0x20 (Some 0x20) Mock.quiet Mock.quiet Mock.quiet);
    try reflexivity.
  by vm_compute.
Defined.

(** C7 on the slot scenario: the cell at [0x2000] holds [0x3000], the
    replacement is [0x4000]. *)
Lemma vtable_round_trip_witness :
  ∃ s1 s2,
    Install_vtable (host := Mock.mock) 0x2000 0 0x4000 slot_0x2000 = Ok true s1
    ∧ memory s1 !! 0x2000 = Some 0x4000
    ∧ sVTableAddresses s1 !! 0x3000 = Some 0x2000
    ∧ sHooks s1 = [(mkHook 0x3000 0x4000 0x3000, VTableHook)]
    ∧ Uninstall_hook (host := Mock.mock) (mkHook 0x3000 0x4000 0x3000) VTableHook s1
      = Ok (true, mkHook 0x3000 0x4000 nullptr) s2
    ∧ memory s2 !! 0x2000 = Some 0x3000
    ∧ sVTableAddresses s2 !! 0x3000 = None
    ∧ (sHooks slot_0x2000 = [] →
       ∃ s3, Uninstall (host := Mock.mock) s1 = Ok tt s3 ∧ memory s3 !! 0x2000 = Some 0x3000
             ∧ sVTableAddresses s3 !! 0x3000 = None ∧ sHooks s3 = []).
Proof.
  apply (vtable_round_trip (host := Mock.mock) slot_0x2000 0x2000 0 0x4000).
  - by vm_compute.
  - by vm_compute.
  - reflexivity.
  - intros protect w. exists 0x20, w. simpl.
    by rewrite andb_false_r.
Defined.

(** C7 as stated fails.  The slots at [0x1000] and at [0x2000] both hold
    [0x3000].  Once the first is hooked, [0x3000] is a key of the slot
    table; [Install] on the second with the replacement [0x5000], which is
    not [0x3000], answers true and writes nothing: the slot at [0x2000]
    still holds [0x3000], and no hook is tracked for [0x5000]. *)
Lemma vtable_round_trip_counterexample :
  memory slots_shared !! 0x2000 = Some 0x3000
  ∧ Install_vtable (host := Mock.mock) 0x1000 0 0x4000 slots_shared = Ok true slots_shared_hooked
  ∧ memory slots_shared_hooked !! 0x2000 = Some 0x3000
  ∧ 0x5000 ≠ 0x3000
  ∧ Install_vtable (host := Mock.mock) 0x2000 0 0x5000 slots_shared_hooked
    = Ok true slots_shared_hooked
  ∧ sHooks slots_shared_hooked = [(mkHook 0x3000 0x4000 0x3000, VTableHook)]
  ∧ Find 0x5000 slots_shared_hooked = Ok Hook_empty slots_shared_hooked.
Proof. repeat split; done. Qed.

Section Bulk.
Context {W : Type} {host : Host W}.
Implicit Types (s : State W) (w : W).

(** The filter of the code is the denylist. *)
Lemma uninteresting_denylisted (name : string) : uninteresting name = denylisted name.
Proof.
  unfold uninteresting, denylisted, denylist.
  assert (Hprefix : String.prefix "DXGID3D10" name
                    = bool_decide (String.substring 0 9 name = "DXGID3D10")).
  { destruct (String.prefix "DXGID3D10" name) eqn:Hp.
    - apply prefix_correct in Hp. by rewrite bool_decide_eq_true_2.
    - rewrite bool_decide_eq_false_2; [done|]. intros Hsub.
      apply (prefix_correct "DXGID3D10" name) in Hsub. congruence. }
  rewrite Hprefix. f_equal.
  destruct (String.eqb_spec name "DXGIReportAdapterConfiguration") as [->|H1]; [done|].
  destruct (String.eqb_spec name "DXGIDumpJournal") as [->|H2]; [done|].
  simpl. symmetry. apply bool_decide_eq_false_2.
  rewrite !elem_of_cons, elem_of_nil. tauto.
Qed.

Lemma find_matches_expected w targetExports replacementExports :
  find_matches w targetExports replacementExports
  = expected_hooks w targetExports replacementExports.
Proof.
  unfold expected_hooks.
  induction targetExports as [|symbol rest IH]; simpl; [done|].
  unfold hookable, replacement_of. fold (same_named w symbol).
  destruct (decide (Name symbol = nullptr ∨ Address symbol = nullptr)) as [Hnull|Hnull].
  - assert (bool_decide (Name symbol ≠ nullptr) && bool_decide (Address symbol ≠ nullptr) = false)
      as ->; [|done].
    destruct Hnull as [H|H].
    + by rewrite (bool_decide_eq_false_2 (Name symbol ≠ nullptr)) by (intros Hn; exact (Hn H)).
    + rewrite (bool_decide_eq_false_2 (Address symbol ≠ nullptr)) by (intros Hn; exact (Hn H)).
      apply andb_false_r.
  - rewrite !bool_decide_eq_true_2 by (intros ?; apply Hnull; auto). simpl.
    destruct (find (same_named w symbol) replacementExports) as [it|] eqn:Hfind.
    + assert (existsb (same_named w symbol) replacementExports = true) as ->.
      { apply find_some in Hfind as [Hin Hsame]. apply existsb_exists. eauto. }
      simpl. rewrite uninteresting_denylisted.
      destruct (denylisted _); simpl; [done|]. by rewrite Hfind, IH.
    + assert (existsb (same_named w symbol) replacementExports = false) as ->; [|done].
      apply not_true_is_false. intros (it & Hin & Hsame)%existsb_exists.
      by rewrite (find_none _ _ Hfind it Hin) in Hsame.
Qed.

(** One pair, a strategy other than the vtable one, a patcher that grants
    every patch: the internal [Install] appends exactly the hook asked for. *)
Lemma Install_hook_granted s t r method :
  method ≠ VTableHook →
  (∀ hook w, ∃ trampoline w', Hook_Install hook w = (Success, trampoline, w')) →
  ∃ hook w', Install_hook t r method s
               = Ok true (set_sHooks (sHooks s ++ [(hook, method)]) (set_world w' s))
             ∧ Target hook = t ∧ Replacement hook = r.
Proof.
  intros Hmethod Hgrant. destruct method; [| |done].
  - exists (mkHook t r t), (world s). split; [|done]. by destruct s.
  - rewrite Install_hook_FunctionHook.
    destruct (Hgrant (mkHook t r t) (world s)) as (trampoline & w' & ->).
    by exists (mkHook t r trampoline), w'.
Qed.

Lemma install_matches_granted matches : ∀ s method counter,
  method ≠ VTableHook →
  (∀ hook w, ∃ trampoline w', Hook_Install hook w = (Success, trampoline, w')) →
  ∃ installed w',
    install_matches matches method counter s
      = Ok (counter + List.length matches)%nat (set_sHooks (sHooks s ++ installed) (set_world w' s))
    ∧ map redirection installed = map (fun m => (fst m, snd m, method)) matches.
Proof.
  induction matches as [|m rest IH]; intros s method counter Hmethod Hgrant; simpl.
  - exists [], (world s). rewrite app_nil_r, Nat.add_0_r. split; [|done]. by destruct s.
  - destruct (Install_hook_granted s (fst m) (snd m) method Hmethod Hgrant)
      as (hook & w1 & Hstep & Ht & Hr).
    unfold bind. rewrite Hstep.
    destruct (IH (set_sHooks (sHooks s ++ [(hook, method)]) (set_world w1 s)) method
                (S counter) Hmethod Hgrant) as (installed & w2 & Hrest & Hmap).
    rewrite Hrest. exists ((hook, method) :: installed), w2. split.
    + f_equal; [lia|]. simpl. by rewrite <- app_assoc.
    + simpl. rewrite Hmap. unfold redirection at 1; simpl. by rewrite Ht, Hr.
Qed.

(** The bulk installer on two export tables already read. *)
Lemma Install_exports_exact s targetExports replacementExports method :
  method ≠ VTableHook →
  (∀ hook w, ∃ trampoline w', Hook_Install hook w = (Success, trampoline, w')) →
  let expected := expected_hooks (world s) targetExports replacementExports in
  ∃ installed s',
    Install_exports targetExports replacementExports method s
      = Ok (bool_decide (List.length expected ≠ 0%nat)) s'
    ∧ sHooks s' = sHooks s ++ installed
    ∧ map redirection installed = map (fun m => (fst m, snd m, method)) expected
    ∧ List.length installed
      = List.length (List.filter (hookable (world s) replacementExports) targetExports).
Proof.
  intros Hmethod Hgrant expected. unfold Install_exports.
  assert (Hloop : ∃ installed s',
    (let* matches := ask (fun w => find_matches w targetExports replacementExports) in
     let* counter := install_matches matches method 0%nat in
     ret (bool_decide (counter ≠ 0%nat))) s
      = Ok (bool_decide (List.length expected ≠ 0%nat)) s'
    ∧ sHooks s' = sHooks s ++ installed
    ∧ map redirection installed = map (fun m => (fst m, snd m, method)) expected
    ∧ List.length installed
      = List.length (List.filter (hookable (world s) replacementExports) targetExports)).
  { unfold bind, ask. rewrite find_matches_expected. fold expected.
    destruct (install_matches_granted expected s method 0%nat Hmethod Hgrant)
      as (installed & w' & -> & Hmap).
    exists installed, (set_sHooks (sHooks s ++ installed) (set_world w' s)).
    split; [done|]. split; [done|]. split; [done|].
    rewrite <- (length_map redirection), Hmap, length_map. unfold expected, expected_hooks.
    by rewrite length_map. }
  destruct targetExports as [|symbol rest]; [|exact Hloop].
  exists [], s. unfold ret; simpl. by rewrite app_nil_r.
Qed.

Lemma filter_hookable_denylisted (w : W) (targetExports replacementExports : list ModuleExport) :
  Forall (fun symbol => denylisted (c_str w (Name symbol)) = true) targetExports →
  List.filter (hookable w replacementExports) targetExports = [].
Proof.
  induction 1 as [|symbol rest Hdenied _ IH]; simpl; [done|].
  unfold hookable at 1. rewrite Hdenied. simpl. by rewrite andb_false_r.
Qed.

(** C5: with a strategy that always succeeds (the export strategy, or the
    inline strategy over a patcher that grants every patch), the bulk
    install over a module pair appends to the table exactly one hook per
    hookable target export (name and address not null, a same-named
    replacement export, name not on the denylist), in export order, each
    from the export's address to the address of the same-named replacement
    export, and answers whether there was one; the table it found is kept as
    a prefix.  In particular a target whose exports are all on the denylist
    gets no hook, whatever the replacement module exports. *)
Theorem Install_module_exact s targetModule replacementModule method :
  method ≠ VTableHook →
  (∀ hook w, ∃ trampoline w', Hook_Install hook w = (Success, trampoline, w')) →
  let targetExports := GetModuleExports (world s) targetModule in
  let replacementExports := GetModuleExports (world s) replacementModule in
  let expected := expected_hooks (world s) targetExports replacementExports in
  ∃ installed s',
    Install_module targetModule replacementModule method s
      = Ok (bool_decide (List.length expected ≠ 0%nat)) s'
    ∧ sHooks s' = sHooks s ++ installed
    ∧ map redirection installed = map (fun m => (fst m, snd m, method)) expected
    ∧ List.length installed
      = List.length (List.filter (hookable (world s) replacementExports) targetExports)
    ∧ (Forall (fun symbol => denylisted (c_str (world s) (Name symbol)) = true) targetExports →
       installed = []).
Proof.
  intros Hmethod Hgrant. cbv zeta. unfold Install_module, bind, ask.
  destruct (Install_exports_exact s (GetModuleExports (world s) targetModule)
              (GetModuleExports (world s) replacementModule) method Hmethod Hgrant)
    as (installed & s' & Hrun & Hhooks & Hmap & Hlength).
  exists installed, s'. repeat (split; [done|]).
  intros Hdenied. rewrite (filter_hookable_denylisted _ _ _ Hdenied) in Hlength.
  by destruct installed.
Qed.

End Bulk.

(** ** How the strategies other than the vtable one change the state *)

Section Frames.
Context {W : Type} {host : Host W}.
Implicit Types (s : State W) (w : W) (installed : list (Hook * HookType)).

Lemma set_same s : set_sHooks (sHooks s ++ []) (set_world (world s) s) = s.
Proof. destruct s. unfold set_sHooks, set_world; simpl. by rewrite app_nil_r. Qed.

Lemma set_sHooks_world_twice s installed installed' w w' :
  set_sHooks (sHooks (set_sHooks (sHooks s ++ installed) (set_world w s)) ++ installed')
    (set_world w' (set_sHooks (sHooks s ++ installed) (set_world w s)))
  = set_sHooks (sHooks s ++ (installed ++ installed')) (set_world w' s).
Proof. unfold set_sHooks, set_world; simpl. by rewrite app_assoc. Qed.

(** The internal [Install] never throws with the export or the inline
    strategy; it appends at most the hook asked for. *)
Lemma Install_hook_frame s t r method :
  method ≠ VTableHook →
  ∃ installed w',
    Install_hook t r method s
      = Ok (bool_decide (installed ≠ [])) (set_sHooks (sHooks s ++ installed) (set_world w' s))
    ∧ (installed = [] ∨ ∃ trampoline, installed = [(mkHook t r trampoline, method)]).
Proof.
  intros Hmethod. destruct method; [| |done].
  - exists [(mkHook t r t, Export)], (world s). split; [|eauto]. by destruct s.
  - rewrite Install_hook_FunctionHook.
    destruct (Hook_Install _ _) as [[status trampoline] w'].
    destruct status;
      try (exists [], w'; split; [|by left]; unfold set_sHooks; simpl;
           by rewrite app_nil_r).
    exists [(mkHook t r trampoline, FunctionHook)], w'. split; [done|eauto].
Qed.

Lemma install_matches_frame matches : ∀ s method counter,
  method ≠ VTableHook →
  ∃ installed w',
    install_matches matches method counter s
      = Ok (counter + List.length installed)%nat
           (set_sHooks (sHooks s ++ installed) (set_world w' s))
    ∧ Forall (fun it => snd it = method) installed.
Proof.
  induction matches as [|m rest IH]; intros s method counter Hmethod; simpl.
  - exists [], (world s). rewrite set_same. simpl. by rewrite Nat.add_0_r.
  - destruct (Install_hook_frame s (fst m) (snd m) method Hmethod)
      as (first & w1 & Hstep & Hfirst).
    unfold bind. rewrite Hstep.
    destruct (IH (set_sHooks (sHooks s ++ first) (set_world w1 s)) method
                (if bool_decide (first ≠ []) then S counter else counter) Hmethod)
      as (installed & w2 & -> & Hall).
    exists (first ++ installed), w2. rewrite set_sHooks_world_twice. split.
    + f_equal. destruct Hfirst as [->|[trampoline ->]]; simpl; lia.
    + apply Forall_app. split; [|done].
      destruct Hfirst as [->|[trampoline ->]]; [constructor|]. by repeat constructor.
Qed.

(** The bulk [Install] with the export or the inline strategy: it never
    throws, only appends hooks of that strategy, and answers true exactly
    when it appended one. *)
Lemma Install_module_frame s targetModule replacementModule method :
  method ≠ VTableHook →
  ∃ installed w',
    Install_module targetModule replacementModule method s
      = Ok (bool_decide (List.length installed ≠ 0%nat))
           (set_sHooks (sHooks s ++ installed) (set_world w' s))
    ∧ Forall (fun it => snd it = method) installed.
Proof.
  intros Hmethod. unfold Install_module, Install_exports, bind, ask.
  destruct (GetModuleExports (world s) targetModule) as [|symbol rest] eqn:Htarget.
  { exists [], (world s). rewrite set_same. by split. }
  destruct (install_matches_frame
              (find_matches (world s) (symbol :: rest)
                 (GetModuleExports (world s) replacementModule)) s method 0%nat Hmethod)
    as (installed & w' & -> & Hall).
  by exists installed, w'.
Qed.

(** The public [Install] never throws and appends at most the hook asked
    for, with the inline strategy. *)
Lemma Install_frame s t r :
  ∃ b installed w',
    Install t r s = Ok b (set_sHooks (sHooks s ++ installed) (set_world w' s))
    ∧ (installed = [] ∨ ∃ trampoline, installed = [(mkHook t r trampoline, FunctionHook)]).
Proof.
  rewrite Install_unfold.
  destruct (decide (t = r)); [|destruct (IsInstalled _)];
    try (eexists _, [], (world s); rewrite set_same; split; [reflexivity|by left]).
  destruct (Install_hook_frame s t r FunctionHook) as (installed & w' & -> & Hcases); [done|].
  by eexists _, installed, w'.
Qed.

End Frames.

Section Delayed.
Context {W : Type} {host : Host W}.
Implicit Types (s : State W) (w : W) (installed : list (Hook * HookType)).

Lemma install_load_watch_frame s :
  ∃ b added w',
    install_load_watch s = Ok b (set_sHooks (sHooks s ++ added) (set_world w' s))
    ∧ Forall load_watch_hook added ∧ (List.length added ≤ 2)%nat.
Proof.
  unfold install_load_watch, bind.
  destruct (Install_frame s addr_LoadLibraryA addr_HookLoadLibraryA)
    as (b1 & added1 & w1 & -> & H1).
  destruct (Install_frame (set_sHooks (sHooks s ++ added1) (set_world w1 s))
              addr_LoadLibraryW addr_HookLoadLibraryW) as (b2 & added2 & w2 & -> & H2).
  exists b2, (added1 ++ added2), w2. rewrite set_sHooks_world_twice.
  split; [done|]. split.
  - apply Forall_app. split.
    + destruct H1 as [->|[trampoline ->]]; [constructor|].
      constructor; [|constructor]. split; [done|by left].
    + destruct H2 as [->|[trampoline ->]]; [constructor|].
      constructor; [|constructor]. split; [done|by right].
  - rewrite length_app.
    destruct H1 as [->|[? ->]], H2 as [->|[? ->]]; simpl; lia.
Qed.


End Delayed.

(** C5 on the scenario of the specification: of Foo and Bar, only Foo has
    a same-named replacement export; exactly one hook, [0x100 -> 0x900].
    And on a pair of modules that both export Foo and three denylisted
    names: again one hook, for Foo. *)
Lemma Install_module_exact_witness :
  GetModuleExports (host := Mock.mock) foo_bar_baz 0x10
    = [mkExport 0x100 0x2010 1; mkExport 0x200 0x2110 2]
  ∧ GetModuleExports (host := Mock.mock) foo_bar_baz 0x800
    = [mkExport 0x900 0x2800 1; mkExport 0x910 0x2900 2]
  ∧ expected_hooks (host := Mock.mock) foo_bar_baz
      (GetModuleExports (host := Mock.mock) foo_bar_baz 0x10)
      (GetModuleExports (host := Mock.mock) foo_bar_baz 0x800) = [(0x100, 0x900)]
  ∧ Install_module (host := Mock.mock) 0x10 0x800 FunctionHook (initial ∅ foo_bar_baz)
    = Ok true (set_sHooks [(mkHook 0x100 0x900 0x101, FunctionHook)] (initial ∅ foo_bar_baz))
  ∧ (∃ installed s',
      Install_module (host := Mock.mock) 0x10 0x800 FunctionHook (initial ∅ foo_bar_baz)
        = Ok true s'
      ∧ sHooks s' = [] ++ installed
      ∧ map redirection installed = [(0x100, 0x900, FunctionHook)]
      ∧ List.length installed = 1%nat)
  ∧ (map (fun symbol => c_str (Host := Mock.mock) foo_denylisted (Name symbol))
       (GetModuleExports (host := Mock.mock) foo_denylisted 0x10)
     = ["Foo"; "DXGIDumpJournal"; "DXGID3D10CreateDevice"; "DXGIReportAdapterConfiguration"]
     ∧ map (fun symbol => c_str (Host := Mock.mock) foo_denylisted (Name symbol))
         (GetModuleExports (host := Mock.mock) foo_denylisted 0x800)
       = ["Foo"; "DXGIDumpJournal"; "DXGID3D10CreateDevice"; "DXGIReportAdapterConfiguration"]
     ∧ ∃ installed s',
         Install_module (host := Mock.mock) 0x10 0x800 FunctionHook (initial ∅ foo_denylisted)
           = Ok true s'
         ∧ sHooks s' = [] ++ installed
         ∧ map redirection installed = [(0x100, 0x900, FunctionHook)]
         ∧ List.length installed = 1%nat).
Proof.
  assert (Hgrant : ∀ hook w, ∃ trampoline w',
            Hook_Install (Host := Mock.mock) hook w = (Success, trampoline, w'))
    by (intros hook w; by eexists _, _).
  repeat (split; [reflexivity|]). split.
  - destruct (Install_module_exact (host := Mock.mock) (initial ∅ foo_bar_baz) 0x10 0x800
                FunctionHook ltac:(done) Hgrant) as (installed & s' & ? & ? & ? & ? & _).
    by exists installed, s'.
  - repeat (split; [reflexivity|]).
    destruct (Install_module_exact (host := Mock.mock) (initial ∅ foo_denylisted) 0x10 0x800
                FunctionHook ltac:(done) Hgrant) as (installed & s' & ? & ? & ? & ? & _).
    by exists installed, s'.
Defined.



(** ** The invariant of the slot table *)

Section Invariant.
Context {W : Type} {host : Host W}.
Implicit Types (s : State W) (w : W) (installed hooks : list (Hook * HookType)).

Lemma extends_refl s : extends s s.
Proof. split; [done|]. exists []. by rewrite app_nil_r. Qed.

Lemma extends_trans s1 s2 s3 : extends s1 s2 → extends s2 s3 → extends s1 s3.
Proof.
  intros [Hslots (l & Hl & Hall)] [Hslots' (l' & Hl' & Hall')]. split; [congruence|].
  exists (l ++ l'). rewrite Hl', Hl, app_assoc. split; [done|]. by apply Forall_app.
Qed.

Lemma extends_grow s installed w method :
  method ≠ VTableHook →
  Forall (fun it => snd it = method) installed →
  extends s (set_sHooks (sHooks s ++ installed) (set_world w s)).
Proof.
  intros Hmethod Hall. split; [done|]. exists installed. split; [done|].
  eapply Forall_impl; [exact Hall|]. intros it ->. done.
Qed.

Lemma vtable_targets_app hooks hooks' :
  vtable_targets (hooks ++ hooks') = vtable_targets hooks ++ vtable_targets hooks'.
Proof. unfold vtable_targets. by rewrite List.filter_app, map_app. Qed.

Lemma vtable_targets_others installed :
  Forall (fun it => snd it ≠ VTableHook) installed → vtable_targets installed = [].
Proof.
  unfold vtable_targets. induction 1 as [|it l Hit _ IH]; simpl; [done|].
  by rewrite bool_decide_eq_false_2.
Qed.

Lemma elem_of_vtable_targets hooks k :
  k ∈ vtable_targets hooks ↔ ∃ it, it ∈ hooks ∧ snd it = VTableHook ∧ Target (fst it) = k.
Proof.
  unfold vtable_targets. rewrite list_elem_of_In, in_map_iff. split.
  - intros (it & <- & Hin). apply filter_In in Hin as [Hin Htype].
    exists it. rewrite list_elem_of_In. by apply bool_decide_eq_true in Htype.
  - intros (it & Hin & Htype & <-). exists it. split; [done|].
    apply filter_In. rewrite <- list_elem_of_In. by rewrite bool_decide_eq_true.
Qed.

Lemma registry_invariant_extends s s' :
  registry_invariant s → extends s s' → registry_invariant s'.
Proof.
  intros [Hcaptured Hdistinct] [Hslots (installed & Hhooks & Hall)]. split.
  - intros it Hin Htype. rewrite Hslots. rewrite Hhooks in Hin.
    apply elem_of_app in Hin as [Hin|Hin]; [by apply Hcaptured|].
    rewrite Forall_forall in Hall. by destruct (Hall it Hin).
  - by rewrite Hhooks, vtable_targets_app, (vtable_targets_others installed), app_nil_r.
Qed.

Lemma Install_extends s t r : ∃ b s', Install t r s = Ok b s' ∧ extends s s'.
Proof.
  destruct (Install_frame s t r) as (b & installed & w' & -> & Hcases).
  eexists _, _. split; [done|]. apply (extends_grow _ _ _ FunctionHook); [done|].
  destruct Hcases as [->|[trampoline ->]]; by repeat constructor.
Qed.

Lemma Install_module_extends s targetModule replacementModule method :
  method ≠ VTableHook →
  ∃ b s', Install_module targetModule replacementModule method s = Ok b s' ∧ extends s s'.
Proof.
  intros Hmethod.
  destruct (Install_module_frame s targetModule replacementModule method Hmethod)
    as (installed & w' & -> & Hall).
  eexists _, _. split; [done|]. by apply (extends_grow _ _ _ method).
Qed.

Lemma Call_extends s r : ∃ f s', Call r s = Ok f s' ∧ extends s s'.
Proof.
  unfold Call. unfold bind at 1. unfold get.
  destruct (negb (String.eqb (sExportHookPath s) "")).
  - unfold bind, Find, tell, call, get, ret, modify, GetCurrentModuleHandle, ask. simpl.
    destruct (LoadLibraryW _ _) as [module w1]. simpl.
    destruct (decide (module ≠ nullptr)); simpl.
    + match goal with |- context [Install_module ?a ?b ?c ?s0] =>
        destruct (Install_module_extends s0 a b c) as (b0 & s' & -> & Hext); [done|]
      end.
      simpl. destruct (negb _); (eexists _, s'; split; [reflexivity|]);
        (eapply extends_trans; [|exact Hext]); (split; [done|]); exists [];
        by rewrite app_nil_r.
    + destruct (negb _); (eexists _, _; split; [reflexivity|]); (split; [done|]);
        exists []; by rewrite app_nil_r.
  - unfold bind, Find, get, ret. simpl.
    destruct (negb _); (eexists _, s; split; [reflexivity|]); apply extends_refl.
Qed.

Lemma Register_extends s targetPath : ∃ s', Register targetPath s = Ok tt s' ∧ extends s s'.
Proof.
  unfold Register. unfold bind at 1.
  destruct (Install_extends s addr_LoadLibraryA addr_HookLoadLibraryA) as (b1 & s1 & -> & H1).
  unfold bind at 1.
  destruct (Install_extends s1 addr_LoadLibraryW addr_HookLoadLibraryW) as (b2 & s2 & -> & H2).
  assert (H12 : extends s s2) by (by eapply extends_trans).
  unfold bind, GetCurrentModuleHandle, ask, modify. simpl.
  destruct (iequals _ _).
  { eexists. split; [done|]. eapply extends_trans; [exact H12|].
    split; [done|]. exists []. by rewrite app_nil_r. }
  simpl. destruct (decide (GetModuleHandle targetPath (world s2) ≠ nullptr)).
  - match goal with |- context [Install_module ?a ?b ?c ?s0] =>
      destruct (Install_module_extends s0 a b c) as (b0 & s' & -> & Hext); [done|]
    end.
    exists s'. split; [done|]. by eapply extends_trans.
  - eexists. split; [done|]. eapply extends_trans; [exact H12|].
    split; [done|]. exists []. by rewrite app_nil_r.
Qed.

Lemma HookLoadLibrary_extends s self lpFileName :
  match HookLoadLibrary self lpFileName s with
  | Ok _ s' => extends s s'
  | Throw e => e = NullCall
  end.
Proof.
  unfold HookLoadLibrary. unfold bind at 1.
  destruct (Call_extends s self) as (original & s1 & -> & H1).
  destruct (decide (original = nullptr)); [done|].
  unfold bind at 1. unfold call.
  destruct (invoke original lpFileName (world s1)) as [handle w2].
  set (s2 := mkState _ _ _ _ _ _ w2).
  assert (H2 : extends s s2).
  { eapply extends_trans; [exact H1|]. split; [done|]. exists []. by rewrite app_nil_r. }
  destruct (decide (handle = nullptr)); [done|].
  unfold bind at 1. unfold get.
  destruct (find_index _ _) as [it|]; [|done].
  unfold bind at 1. unfold GetCurrentModuleHandle, ask. unfold bind at 1.
  match goal with |- context [Install_module ?a ?b ?c ?s0] =>
    destruct (Install_module_extends s0 a b c) as (ok & s3 & -> & H3); [done|]
  end.
  assert (H23 : extends s s3) by (by eapply extends_trans).
  destruct ok; unfold bind, modify, ret; [|done].
  eapply extends_trans; [exact H23|]. split; [done|]. exists []. by rewrite app_nil_r.
Qed.

Lemma Install_vtable_invariant s vtable offset r :
  registry_invariant s →
  ∃ b s', Install_vtable vtable offset r s = Ok b s'
    ∧ registry_invariant s'
    ∧ sVTableAddresses s ⊆ sVTableAddresses s'
    ∧ (b = false → sVTableAddresses s' = sVTableAddresses s ∧ sHooks s' = sHooks s).
Proof.
  intros [Hcaptured Hdistinct]. unfold Install_vtable.
  set (slot := vtable + offset * sizeof_Function).
  unfold bind at 1. unfold call at 1.
  destruct (VirtualProtect slot PAGE_READONLY (world s)) as [[protection|] w1]; simpl.
  2: { eexists _, _. split; [reflexivity|]. by repeat split. }
  unfold bind at 1. unfold load at 1. simpl.
  set (target := default nullptr (memory s !! slot)).
  unfold bind at 1. unfold get at 1. simpl.
  destruct (sVTableAddresses s !! target) as [captured|] eqn:Hfresh.
  { rewrite bool_decide_eq_false_2 by done.
    unfold bind, ret, call. simpl. destruct (VirtualProtect slot protection w1) as [? w2].
    eexists _, _. split; [reflexivity|]. by repeat split. }
  rewrite bool_decide_eq_true_2 by done.
  unfold bind at 1. unfold modify at 1. unfold bind at 1. unfold call at 1. simpl.
  destruct (VirtualProtect slot protection w1) as [restored w2].
  destruct (decide (target = r)) as [Hsame|Hother].
  { unfold bind, ret, modify. simpl. eexists _, _. split; [reflexivity|]. simpl.
    rewrite delete_insert_id by done. by repeat split. }
  unfold bind at 1. unfold Install_hook, Install_status.
  unfold bind at 1 2 3. unfold sVTableAddresses_at. simpl. rewrite lookup_insert_eq.
  unfold call at 1. simpl.
  destruct (VirtualProtect slot PAGE_READWRITE w2) as [[writable|] w3]; simpl.
  2: { unfold ret, bind, modify. simpl. eexists _, _. split; [reflexivity|]. simpl.
       rewrite delete_insert_id by done. by repeat split. }
  unfold bind, store, modify, call, ret. simpl.
  destruct (VirtualProtect slot writable w3) as [? w4]. simpl.
  eexists _, _. split; [reflexivity|]. simpl. split; [|split; [|done]].
  - split.
    + intros it Hin Htype. simpl in *.
      apply elem_of_app in Hin as [Hin|Hin].
      * apply lookup_insert_is_Some'. right. by apply Hcaptured.
      * apply list_elem_of_singleton in Hin as ->. simpl. rewrite lookup_insert_eq. eauto.
    + simpl. rewrite vtable_targets_app. unfold vtable_targets at 2. simpl.
      apply NoDup_app. split; [done|]. split; [|apply NoDup_singleton].
      intros k Hk ->%list_elem_of_singleton.
      apply elem_of_vtable_targets in Hk as (it & Hin & Htype & Htarget).
      destruct (Hcaptured it Hin Htype) as [slot' Hslot']. congruence.
  - by apply insert_subseteq.
Qed.

Lemma Uninstall_hook_captured s hook method :
  (method = VTableHook → is_Some (sVTableAddresses s !! Target hook)) →
  ∃ ok hook' s', Uninstall_hook hook method s = Ok (ok, hook') s'
    ∧ sHooks s' = sHooks s
    ∧ (sVTableAddresses s' = sVTableAddresses s
       ∨ (method = VTableHook
          ∧ sVTableAddresses s' = delete (Target hook) (sVTableAddresses s))).
Proof.
  intros Hcaptured. unfold Uninstall_hook.
  destruct (negb (IsInstalled hook)); [by eexists _, _, _; eauto|].
  destruct (decide (method = Export)); [by eexists _, _, _; eauto|].
  destruct method; [done| |].
  - unfold bind, call. destruct (Hook_Uninstall hook (world s)) as [status w'].
    destruct status; eexists _, _, _; (split; [reflexivity|]); eauto.
  - destruct Hcaptured as [slot Hslot]; [done|].
    unfold bind at 1 2. unfold sVTableAddresses_at. rewrite Hslot.
    unfold bind at 1. unfold call at 1.
    destruct (VirtualProtect slot PAGE_READWRITE (world s)) as [[protection|] w1]; simpl.
    + unfold bind, store, modify, call, ret. simpl.
      destruct (VirtualProtect slot protection w1) as [? w2]. simpl.
      eexists _, _, _. split; [reflexivity|]. split; [done|]. right. done.
    + eexists _, _, _. split; [reflexivity|]. split; [done|]. by left.
Qed.

Lemma Uninstall_all_captured hooks : ∀ s,
  (∀ it, it ∈ hooks → snd it = VTableHook → is_Some (sVTableAddresses s !! Target (fst it))) →
  NoDup (vtable_targets hooks) →
  ∃ hooks' s', Uninstall_all hooks s = Ok hooks' s'
    ∧ sHooks s' = sHooks s
    ∧ sVTableAddresses s' ⊆ sVTableAddresses s
    ∧ (∀ k, is_Some (sVTableAddresses s !! k) → sVTableAddresses s' !! k = None →
            k ∈ vtable_targets hooks).
Proof.
  induction hooks as [|it rest IH]; intros s Hcaptured Hdistinct; simpl.
  { exists [], s. split; [done|]. split; [done|]. split; [done|].
    intros k [slot Hk] Hnone. congruence. }
  destruct (Uninstall_hook_captured s (fst it) (snd it)) as (ok & hook' & s1 & Hstep & Hhooks & Hslots).
  { intros Htype. apply Hcaptured; [left|done]. }
  unfold bind at 1. rewrite Hstep.
  assert (Hrest : NoDup (vtable_targets rest)).
  { change (it :: rest) with ([it] ++ rest) in Hdistinct.
    rewrite vtable_targets_app in Hdistinct. by apply NoDup_app in Hdistinct as (_ & _ & ?). }
  destruct (IH s1) as (hooks' & s' & Hloop & Hhooks' & Hsub & Hremoved); [|done|].
  { intros it' Hin Htype. destruct Hslots as [->|[Hvtable ->]]; [apply Hcaptured; [by right|done]|].
    rewrite lookup_delete_ne; [apply Hcaptured; [by right|done]|].
    intros Heq. unfold vtable_targets in Hdistinct. simpl in Hdistinct.
    rewrite (bool_decide_eq_true_2 _ Hvtable) in Hdistinct. simpl in Hdistinct.
    apply NoDup_cons in Hdistinct as [Hnotin _]. apply Hnotin.
    apply elem_of_vtable_targets. eauto. }
  unfold bind. rewrite Hloop. eexists _, s'. split; [reflexivity|].
  split; [congruence|]. split.
  - etrans; [exact Hsub|]. destruct Hslots as [->|[_ ->]]; [done|apply delete_subseteq].
  - intros k Hk Hnone. change (it :: rest) with ([it] ++ rest).
    rewrite vtable_targets_app. apply elem_of_app.
    destruct Hslots as [Hsame|[Hvtable Hdeleted]].
    + right. apply Hremoved; [by rewrite Hsame|done].
    + destruct (decide (k = Target (fst it))) as [->|Hother].
      * left. unfold vtable_targets. simpl. rewrite (bool_decide_eq_true_2 _ Hvtable).
        simpl. by left.
      * right. apply Hremoved; [|done]. by rewrite Hdeleted, lookup_delete_ne.
Qed.

Lemma Uninstall_invariant s :
  registry_invariant s →
  ∃ s', Uninstall s = Ok tt s'
    ∧ sHooks s' = []
    ∧ sVTableAddresses s' ⊆ sVTableAddresses s
    ∧ (∀ k, is_Some (sVTableAddresses s !! k) → sVTableAddresses s' !! k = None →
            k ∈ vtable_targets (sHooks s)).
Proof.
  intros [Hcaptured Hdistinct]. unfold Uninstall. unfold bind at 1. unfold get at 1.
  destruct (Uninstall_all_captured (sHooks s) s Hcaptured Hdistinct)
    as (hooks' & s1 & Hloop & _ & Hsub & Hremoved).
  unfold bind at 1. rewrite Hloop. unfold bind, modify, get, tell, call, ret. simpl.
  destruct (decide (sExportHookModule s1 ≠ nullptr)); eexists; (split; [reflexivity|]); done.
Qed.

(** The internal [Uninstall] erases a slot-table entry only when it
    succeeds, and then the entry of the hook it uninstalls. *)
Lemma Uninstall_hook_erases s hook method ok hook' s' :
  Uninstall_hook hook method s = Ok (ok, hook') s' →
  sVTableAddresses s' = sVTableAddresses s
  ∨ (ok = true ∧ method = VTableHook
     ∧ sVTableAddresses s' = delete (Target hook) (sVTableAddresses s)).
Proof.
  unfold Uninstall_hook.
  destruct (negb (IsInstalled hook)); [intros [= <- <- <-]; by left|].
  destruct (decide (method = Export)); [intros [= <- <- <-]; by left|].
  destruct method; [done| |].
  - unfold bind, call. destruct (Hook_Uninstall hook (world s)) as [status w'].
    destruct status; intros [= <- <- <-]; by left.
  - unfold bind at 1 2. unfold sVTableAddresses_at.
    destruct (sVTableAddresses s !! Target hook) as [slot|]; [|done].
    unfold bind at 1. unfold call at 1.
    destruct (VirtualProtect slot PAGE_READWRITE (world s)) as [[protection|] w1]; simpl.
    + unfold bind, store, modify, call, ret. simpl.
      destruct (VirtualProtect slot protection w1) as [? w2]. simpl.
      intros [= <- <- <-]. by right.
    + intros [= <- <- <-]. by left.
Qed.

Lemma step_invariant (op : Op) s :
  registry_invariant s →
  match step op s with
  | Ok _ s' =>
      registry_invariant s'
      ∧ (op ≠ CallUninstall → sVTableAddresses s ⊆ sVTableAddresses s')
      ∧ (op = CallUninstall →
         sHooks s' = []
         ∧ sVTableAddresses s' ⊆ sVTableAddresses s
         ∧ ∀ k, is_Some (sVTableAddresses s !! k) → sVTableAddresses s' !! k = None →
                k ∈ vtable_targets (sHooks s))
  | Throw e => e = NullCall
  end.
Proof.
  intros Hinv.
  assert (Hext : ∀ s', extends s s' →
    registry_invariant s' ∧ sVTableAddresses s ⊆ sVTableAddresses s').
  { intros s' Hext. split; [by eapply registry_invariant_extends|].
    destruct Hext as [-> _]. done. }
  destruct op as [targetPath|t r|vtable offset r| |r|r|lpFileName|lpFileName|mem w]; simpl.
  - destruct (Register_extends s targetPath) as (s' & -> & H).
    destruct (Hext s' H). split; [done|]. split; [done|]. intros Heq; discriminate Heq.
  - unfold bind. destruct (Install_extends s t r) as (b & s' & -> & H).
    destruct (Hext s' H). split; [done|]. split; [done|]. intros Heq; discriminate Heq.
  - unfold bind.
    destruct (Install_vtable_invariant s vtable offset r Hinv) as (b & s' & -> & ? & ? & _).
    split; [done|]. split; [done|]. intros Heq; discriminate Heq.
  - destruct (Uninstall_invariant s Hinv) as (s' & -> & Hempty & Hsub & Hremoved).
    split; [|split; [done|by intros _]].
    split; [intros it Hin; rewrite Hempty in Hin; by apply elem_of_nil in Hin|].
    rewrite Hempty. constructor.
  - unfold bind, Find, get, ret. split; [done|]. split; [done|]. intros Heq; discriminate Heq.
  - unfold bind. destruct (Call_extends s r) as (f & s' & -> & H).
    destruct (Hext s' H). split; [done|]. split; [done|]. intros Heq; discriminate Heq.
  - unfold bind, HookLoadLibraryA.
    pose proof (HookLoadLibrary_extends s addr_HookLoadLibraryA lpFileName) as H.
    destruct (HookLoadLibrary _ _ s) as [handle s'|e]; [|done].
    destruct (Hext s' H). split; [done|]. split; [done|]. intros Heq; discriminate Heq.
  - unfold bind, HookLoadLibraryW.
    pose proof (HookLoadLibrary_extends s addr_HookLoadLibraryW lpFileName) as H.
    destruct (HookLoadLibrary _ _ s) as [handle s'|e]; [|done].
    destruct (Hext s' H). split; [done|]. split; [done|]. intros Heq; discriminate Heq.
  - unfold modify. split; [exact Hinv|]. split; [done|]. intros Heq; discriminate Heq.
Qed.

Lemma run_invariant (ops : list Op) : ∀ s,
  registry_invariant s →
  match run ops s with
  | Ok _ s' => registry_invariant s'
  | Throw e => e = NullCall
  end.
Proof.
  induction ops as [|op rest IH]; intros s Hinv; simpl; [done|].
  unfold bind. pose proof (step_invariant op s Hinv) as Hstep.
  destruct (step op s) as [[] s'|e]; [|done]. apply IH, Hstep.
Qed.

(** C10: from process attach on, whatever the manager is asked and
    whatever the rest of the process does in between, every tracked vtable
    hook has its target as a key of the slot table (and no two of them share
    a target), and no call ends in the [out_of_range] of a slot-table
    lookup.  Each operation keeps the invariant; no operation but
    [Uninstall()] removes an entry that was in the slot table, [Uninstall()]
    removes only targets of tracked vtable hooks and empties the hook table,
    the internal [Uninstall] erases an entry only when it succeeds, and a
    vtable [Install] that answers false leaves both tables as they were: its
    rollback removes the entry it had just inserted, no other. *)
Theorem slot_table_invariant :
  (∀ (ops : list Op) mem w,
     match run ops (initial mem w) with
     | Ok _ s => registry_invariant s
     | Throw e => e = NullCall
     end)
  ∧ (∀ (op : Op) s,
     registry_invariant s →
     match step op s with
     | Ok _ s' =>
         registry_invariant s'
         ∧ (op ≠ CallUninstall → sVTableAddresses s ⊆ sVTableAddresses s')
         ∧ (op = CallUninstall →
            sHooks s' = []
            ∧ sVTableAddresses s' ⊆ sVTableAddresses s
            ∧ ∀ k, is_Some (sVTableAddresses s !! k) → sVTableAddresses s' !! k = None →
                   k ∈ vtable_targets (sHooks s))
     | Throw e => e = NullCall
     end)
  ∧ (∀ s hook method ok hook' s',
     Uninstall_hook hook method s = Ok (ok, hook') s' →
     sVTableAddresses s' = sVTableAddresses s
     ∨ (ok = true ∧ method = VTableHook
        ∧ sVTableAddresses s' = delete (Target hook) (sVTableAddresses s)))
  ∧ (∀ s vtable offset r s',
     registry_invariant s →
     Install_vtable vtable offset r s = Ok false s' →
     sVTableAddresses s' = sVTableAddresses s ∧ sHooks s' = sHooks s).
Proof.
  split; [|split; [|split]].
  - intros ops mem w. apply run_invariant. split.
    + intros it Hin. by apply elem_of_nil in Hin.
    + constructor.
  - apply step_invariant.
  - apply Uninstall_hook_erases.
  - intros s vtable offset r s' Hinv Hfalse.
    destruct (Install_vtable_invariant s vtable offset r Hinv) as (b & s1 & Heq & _ & _ & Hfail).
    rewrite Heq in Hfalse. injection Hfalse as -> ->. by apply Hfail.
Qed.

End Invariant.

(** C10 on the slot scenario: the invariant after the vtable install, and
    what [Uninstall()] removes. *)
Lemma slot_table_invariant_witness :
  run (host := Mock.mock) [CallInstall_vtable 0x2000 0 0x4000] slot_0x2000 = Ok tt slot_hooked
  ∧ registry_invariant slot_hooked
  ∧ step (host := Mock.mock) CallUninstall slot_hooked = Ok tt slot_0x2000
  ∧ (registry_invariant slot_0x2000
     ∧ (CallUninstall (W := Mock.World) ≠ CallUninstall →
        sVTableAddresses slot_hooked ⊆ sVTableAddresses slot_0x2000)
     ∧ (CallUninstall (W := Mock.World) = CallUninstall →
        sHooks slot_0x2000 = []
        ∧ sVTableAddresses slot_0x2000 ⊆ sVTableAddresses slot_hooked
        ∧ ∀ k, is_Some (sVTableAddresses slot_hooked !! k) →
               sVTableAddresses slot_0x2000 !! k = None →
               k ∈ vtable_targets (sHooks slot_hooked))).
Proof.
  assert (Hinv : registry_invariant slot_hooked)
    by exact (proj1 (slot_table_invariant (host := Mock.mock))
                [CallInstall_vtable 0x2000 0 0x4000] {[ 0x2000 := 0x3000 ]} Mock.quiet).
  split; [reflexivity|]. split; [exact Hinv|]. split; [reflexivity|].
  exact (proj1 (proj2 (slot_table_invariant (host := Mock.mock))) CallUninstall slot_hooked Hinv).
Defined.

Section Teardown.
Context {W : Type} {host : Host W}.

(** [Uninstall()] on an empty table: nothing is left to uninstall, but the
    export module handle, never reset, is handed to [FreeLibrary] again. *)
Lemma Uninstall_again (s : State W) :
  sHooks s = [] →
  Uninstall s
  = Ok tt (if decide (sExportHookModule s ≠ nullptr)
           then set_world (FreeLibrary (sExportHookModule s) (world s)) s
           else s).
Proof.
  intros Hempty. unfold Uninstall, bind, get, modify, tell, call, ret. rewrite Hempty. simpl.
  destruct s as [module ? hooks ? ? ? w]; simpl in *. subst hooks.
  by destruct (decide (module ≠ nullptr)).
Qed.

End Teardown.

(** C2, the failing run: the manager's module is registered against the
    system module it replaces, the first [Call] loads that module, then
    [Uninstall()] runs twice.  The first empties the table and frees the
    module; the second is not a no-op: it frees the same handle again. *)
Lemma Uninstall_twice_frees_twice :
  run (host := Mock.mock) [CallRegister d3d9_path; CallCall 0x10003000] (initial ∅ d3d9_world)
    = Ok tt d3d9_loaded
  ∧ Uninstall (host := Mock.mock) d3d9_loaded = Ok tt d3d9_uninstalled
  ∧ sHooks d3d9_uninstalled = []
  ∧ Mock.freed (world d3d9_uninstalled) = [0x60000000]
  ∧ Uninstall (host := Mock.mock) d3d9_uninstalled = Ok tt d3d9_uninstalled_twice
  ∧ Mock.freed (world d3d9_uninstalled_twice) = [0x60000000; 0x60000000]
  ∧ d3d9_uninstalled_twice ≠ d3d9_uninstalled.
Proof. repeat (split; [reflexivity|]). intros Heq. discriminate Heq. Qed.

(** ** Why the preconditions are there *)

(** A slot that holds [nullptr] gives a hook whose trampoline is null.  It
    counts as not installed: a later [Install(0x1000, 0x4000)] on the same
    replacement goes through, and [Find(0x4000)] still answers the older
    hook.  Hence the condition of C1 on the hooks already tracked. *)
Lemma stale_hook_shadows_new_one :
  run (host := Mock.mock) [CallInstall_vtable 0x2000 0 0x4000] fresh
    = Ok tt (mkState nullptr "" [(mkHook nullptr 0x4000 nullptr, VTableHook)] []
               {[ nullptr := 0x2000 ]} {[ 0x2000 := 0x4000 ]} Mock.quiet)
  ∧ ∃ s1,
      (Install_vtable (host := Mock.mock) 0x2000 0 0x4000;;
       Install (host := Mock.mock) 0x1000 0x4000) fresh
        = Ok true s1
      ∧ Find 0x4000 s1 = Ok (mkHook nullptr 0x4000 nullptr) s1.
Proof. split; [reflexivity|]. eexists. split; reflexivity. Qed.

(** The same hook is skipped by [Uninstall()] as already uninstalled: the
    slot keeps the replacement and the slot table keeps its entry.  Hence
    the condition of C7 that the original pointer is not null. *)
Lemma null_slot_not_restored :
  run (host := Mock.mock) [CallInstall_vtable 0x2000 0 0x4000; CallUninstall] fresh
    = Ok tt (mkState nullptr "" [] [] {[ nullptr := 0x2000 ]} {[ 0x2000 := 0x4000 ]} Mock.quiet).
Proof. reflexivity. Qed.

(** What [Uninstall()] leaves: under the invariant of the registry it
    returns, and the hook table is empty. *)
Theorem Uninstall_empties_table {W : Type} {host : Host W} (s : State W) :
  registry_invariant s → ∃ s', Uninstall s = Ok tt s' ∧ sHooks s' = [].
Proof.
  intros Hinv. destruct (Uninstall_invariant s Hinv) as (s' & Heq & Hempty & _). eauto.
Qed.

Lemma Uninstall_empties_table_witness :
  ∃ s', Uninstall (host := Mock.mock) hooked_0x2000 = Ok tt s' ∧ sHooks s' = [].
Proof.
  apply (Uninstall_empties_table (host := Mock.mock) hooked_0x2000). split.
  - intros it Hin Htype. apply list_elem_of_singleton in Hin as ->. discriminate Htype.
  - constructor.
Defined.

(** * Further properties of the registry *)

Section RegistryMore.
Context {W : Type} {host : Host W}.
Implicit Types (s : State W) (w : W) (hooks installed : list (Hook * HookType)).

(** The public [Install] never throws and never removes or reorders a
    tracked hook: it leaves the state as it is but for the host's world and
    at most one hook appended to the table, the hook [(t, r)] with the
    inline strategy, and then it answers true. *)
Theorem Install_appends_at_most_one s t r :
  ∃ b installed w',
    Install t r s = Ok b (set_sHooks (sHooks s ++ installed) (set_world w' s))
    ∧ (installed = []
       ∨ (b = true ∧ ∃ trampoline, installed = [(mkHook t r trampoline, FunctionHook)])).
Proof.
  rewrite Install_unfold.
  destruct (decide (t = r)); [|destruct (IsInstalled _)];
    try (eexists _, [], (world s); rewrite set_same; split; [reflexivity|by left]).
  rewrite Install_hook_FunctionHook.
  destruct (Hook_Install _ _) as [[status trampoline] w'].
  destruct status;
    try (exists false, [], w'; split; [|by left]; unfold set_sHooks; simpl;
         by rewrite app_nil_r).
  exists true, [(mkHook t r trampoline, FunctionHook)], w'. split; [done|]. right. eauto.
Qed.

(** [Call] when no export module is deferred: a lookup, no effect. *)
Lemma Call_resolved s r :
  sExportHookPath s = "" →
  Call r s = Ok (if IsValid (find_hook (sHooks s) r)
                 then Trampoline (find_hook (sHooks s) r) else nullptr) s.
Proof.
  intros Hpath. unfold Call, bind, get, Find, ret. rewrite Hpath. simpl.
  by destruct (IsValid _).
Qed.

(** Install, then call: for non-null [t != r], a replacement not tracked
    yet and a patch the patcher grants, [Install(t, r)] succeeds and
    [Call(r)] then answers the trampoline the patcher reported. *)
Theorem Install_then_Call s t r trampoline w' :
  t ≠ nullptr → r ≠ nullptr → t ≠ r →
  sExportHookPath s = "" →
  (∀ it, it ∈ sHooks s → Replacement (fst it) ≠ r) →
  Hook_Install (mkHook t r t) (world s) = (Success, trampoline, w') →
  ∃ s1, Install t r s = Ok true s1 ∧ Call r s1 = Ok trampoline s1.
Proof.
  intros Ht Hr Hne Hpath Hfree Hpatch.
  assert (Hnone : find (fun it => bool_decide (Replacement (fst it) = r)) (sHooks s) = None).
  { destruct (find _ (sHooks s)) as [it|] eqn:Hfind; [|done].
    apply find_some in Hfind as [Hin Heq]. apply bool_decide_eq_true in Heq.
    apply list_elem_of_In in Hin. by destruct (Hfree it Hin). }
  rewrite Install_unfold. destruct (decide (t = r)); [done|].
  unfold find_hook at 1. rewrite Hnone. simpl.
  rewrite Install_hook_FunctionHook, Hpatch. eexists. split; [reflexivity|].
  rewrite Call_resolved by done. simpl.
  rewrite find_hook_app, Hnone. unfold find_hook, IsValid. simpl.
  rewrite (bool_decide_eq_true_2 (r = r)) by done. simpl.
  by rewrite !bool_decide_eq_true_2.
Qed.

(** The internal [Uninstall] is idempotent: once it has answered true for
    a hook, a second call on the hook as it left it answers true again and
    changes nothing. *)
Theorem Uninstall_hook_idempotent s hook method hook' s' :
  Uninstall_hook hook method s = Ok (true, hook') s' →
  Uninstall_hook hook' method s' = Ok (true, hook') s'.
Proof.
  unfold Uninstall_hook at 1.
  destruct (negb (IsInstalled hook)) eqn:Hinst.
  { intros [= <- <-]. unfold Uninstall_hook. by rewrite Hinst. }
  destruct (decide (method = Export)) as [->|Hmethod].
  { intros [= <- <-]. unfold Uninstall_hook. by rewrite Hinst. }
  assert (Hdone : ∀ s0, Uninstall_hook (mkHook (Target hook) (Replacement hook) nullptr) method s0
                        = Ok (true, mkHook (Target hook) (Replacement hook) nullptr) s0)
    by done.
  destruct method; [done| |].
  - unfold bind, call. destruct (Hook_Uninstall hook (world s)) as [status w'].
    destruct status; intros [= <- <-]; apply Hdone.
  - unfold bind at 1 2. unfold sVTableAddresses_at.
    destruct (sVTableAddresses s !! Target hook) as [slot|]; [|done].
    unfold bind at 1. unfold call at 1.
    destruct (VirtualProtect slot PAGE_READWRITE (world s)) as [[protection|] w1]; simpl;
      [|done].
    unfold bind, store, modify, call, ret. simpl.
    destruct (VirtualProtect slot protection w1) as [? w2]. simpl.
    intros [= <- <-]. apply Hdone.
Qed.

Lemma Uninstall_hook_keeps s hook method r s' :
  Uninstall_hook hook method s = Ok r s' →
  sExportHookModule s' = sExportHookModule s ∧ sExportHookPath s' = sExportHookPath s
  ∧ sDelayedHookPaths s' = sDelayedHookPaths s ∧ sHooks s' = sHooks s
  ∧ sVTableAddresses s' ⊆ sVTableAddresses s
  ∧ ∀ a, (method = VTableHook → sVTableAddresses s !! Target hook ≠ Some a) →
         memory s' !! a = memory s !! a.
Proof.
  unfold Uninstall_hook.
  destruct (negb (IsInstalled hook)); [by intros [= <- <-]|].
  destruct (decide (method = Export)); [by intros [= <- <-]|].
  destruct method; [done| |].
  - unfold bind, call. destruct (Hook_Uninstall hook (world s)) as [status w'].
    destruct status; by intros [= <- <-].
  - unfold bind at 1 2. unfold sVTableAddresses_at.
    destruct (sVTableAddresses s !! Target hook) as [slot|] eqn:Hslot; [|done].
    unfold bind at 1. unfold call at 1.
    destruct (VirtualProtect slot PAGE_READWRITE (world s)) as [[protection|] w1]; simpl;
      [|by intros [= <- <-]].
    unfold bind, store, modify, call, ret. simpl.
    destruct (VirtualProtect slot protection w1) as [? w2]. simpl.
    intros [= <- <-]. simpl. repeat (split; [done|]). split; [apply delete_subseteq|].
    intros a Ha. rewrite lookup_insert_ne; [done|]. intros ->. by apply Ha.
Qed.

Lemma Uninstall_all_keeps hooks : ∀ s hooks' s',
  Uninstall_all hooks s = Ok hooks' s' →
  sExportHookModule s' = sExportHookModule s ∧ sExportHookPath s' = sExportHookPath s
  ∧ sDelayedHookPaths s' = sDelayedHookPaths s
  ∧ sVTableAddresses s' ⊆ sVTableAddresses s
  ∧ ∀ a, (∀ it, it ∈ hooks → snd it = VTableHook →
                sVTableAddresses s !! Target (fst it) ≠ Some a) →
         memory s' !! a = memory s !! a.
Proof.
  induction hooks as [|it rest IH]; intros s hooks' s'; simpl.
  { by intros [= <- <-]. }
  unfold bind at 1.
  destruct (Uninstall_hook (fst it) (snd it) s) as [[ok hook] s1|e] eqn:Hstep; [|done].
  apply Uninstall_hook_keeps in Hstep as (Hm & Hp & Hd & _ & Hsub & Hmem).
  unfold bind at 1.
  destruct (Uninstall_all rest s1) as [rest' s2|e] eqn:Hloop; [|done].
  apply IH in Hloop as (Hm' & Hp' & Hd' & Hsub' & Hmem').
  intros [= <- <-]. split; [congruence|]. split; [congruence|]. split; [congruence|].
  split; [by etrans|].
  intros a Ha. rewrite Hmem', Hmem; [done| |].
  - intros Htype. apply Ha; [left|done].
  - intros it' Hin Htype Hlook. apply (Ha it'); [by right|done|].
    by eapply lookup_weaken.
Qed.

Lemma Uninstall_frame s s' :
  Uninstall s = Ok tt s' →
  sHooks s' = []
  ∧ sExportHookModule s' = sExportHookModule s ∧ sExportHookPath s' = sExportHookPath s
  ∧ sDelayedHookPaths s' = sDelayedHookPaths s
  ∧ sVTableAddresses s' ⊆ sVTableAddresses s
  ∧ ∀ a, (∀ it, it ∈ sHooks s → snd it = VTableHook →
                sVTableAddresses s !! Target (fst it) ≠ Some a) →
         memory s' !! a = memory s !! a.
Proof.
  unfold Uninstall. unfold bind at 1. unfold get at 1.
  unfold bind at 1.
  destruct (Uninstall_all (sHooks s) s) as [hooks' s1|e] eqn:Hloop; [|done].
  apply Uninstall_all_keeps in Hloop as (Hm & Hp & Hd & Hsub & Hmem).
  unfold bind, modify, get, tell, call, ret. simpl.
  destruct (decide (sExportHookModule s1 ≠ nullptr)); intros [= <-]; simpl; done.
Qed.

(** What the global [Uninstall()] keeps: the export module handle, the
    deferred export path and the pending list are as before, no entry is
    added to the slot table, and the only memory cells written are slots
    the slot table held for tracked vtable hooks. *)
Theorem Uninstall_keeps s s' :
  Uninstall s = Ok tt s' →
  sHooks s' = []
  ∧ sExportHookModule s' = sExportHookModule s ∧ sExportHookPath s' = sExportHookPath s
  ∧ sDelayedHookPaths s' = sDelayedHookPaths s
  ∧ sVTableAddresses s' ⊆ sVTableAddresses s
  ∧ ∀ a, (∀ it, it ∈ sHooks s → snd it = VTableHook →
                sVTableAddresses s !! Target (fst it) ≠ Some a) →
         memory s' !! a = memory s !! a.
Proof. apply Uninstall_frame. Qed.

End RegistryMore.

Section Unique.
Context {W : Type} {host : Host W}.
Implicit Types (s : State W) (w : W).

Lemma replacements_unique_step (op : @Op W) s :
  patcher_sets_trampoline →
  pairwise op →
  replacements_unique s →
  ∃ s', step op s = Ok tt s' ∧ replacements_unique s'.
Proof.
  intros Hpatcher Hop (Hdistinct & Hinstalled & Hpath).
  destruct op as [?|t r|? ? ?| |r|r|?|?|mem w]; try done; simpl; unfold bind.
  - rewrite Install_unfold.
    destruct (decide (t = r)); [by eexists|].
    destruct (IsInstalled (find_hook (sHooks s) r)) eqn:Hfound; [by eexists|].
    rewrite Install_hook_FunctionHook. specialize (Hpatcher (mkHook t r t) (world s)).
    destruct (Hook_Install _ _) as [[status trampoline] w'].
    destruct status; try (eexists; split; [reflexivity|done]).
    eexists. split; [reflexivity|]. unfold replacements_unique. simpl.
    split; [|split; [|done]].
    + rewrite map_app. simpl. apply NoDup_app. split; [done|]. split; [|apply NoDup_singleton].
      intros r' Hin ->%list_elem_of_singleton.
      apply list_elem_of_In, in_map_iff in Hin as (it & Hr & Hin).
      assert (Hnone : find (fun it => bool_decide (Replacement (fst it) = r)) (sHooks s) = None).
      { apply find_hook_untracked; [|done]. intros it' Hin' _.
        rewrite Forall_forall in Hinstalled. by destruct (Hinstalled it' Hin'). }
      apply (find_none _ _ Hnone) in Hin. by rewrite bool_decide_eq_true_2 in Hin.
    + apply Forall_app. split; [done|]. constructor; [|constructor]. split; [|done].
      by apply bool_decide_eq_true_2.
  - destruct (Uninstall_invariant s) as (s' & Hrun & Hempty & _).
    { split.
      - intros it Hin Htype. rewrite Forall_forall in Hinstalled.
        destruct (Hinstalled it Hin) as [_ Hinline]. congruence.
      - rewrite vtable_targets_others; [constructor|].
        eapply Forall_impl; [exact Hinstalled|]. intros it [_ ->]. done. }
    rewrite Hrun. exists s'. split; [done|].
    apply Uninstall_frame in Hrun as (_ & _ & Hpath' & _).
    unfold replacements_unique. rewrite Hempty, Hpath'. split; [constructor|]. by split.
  - unfold Find, bind, get, ret. by eexists.
  - rewrite Call_resolved by done. by eexists.
  - unfold modify. by eexists.
Qed.

(** Hooks installed pair by pair stay unambiguous.  Over a patcher that
    never reports a null trampoline, from process attach on, any sequence
    of public [Install(target, replacement)], [Find], [Call] and
    [Uninstall()] calls, whatever the host does in between, runs without
    throwing and leaves a table of installed inline hooks in which no two
    hooks share a replacement: [Find] has at most one candidate. *)
Theorem pairwise_installs_unique (ops : list (@Op W)) mem w :
  patcher_sets_trampoline →
  Forall pairwise ops →
  ∃ s, run ops (initial mem w) = Ok tt s ∧ replacements_unique s.
Proof.
  intros Hpatcher Hops.
  assert (Hrun : ∀ s, replacements_unique s →
            ∃ s', run ops s = Ok tt s' ∧ replacements_unique s').
  { induction Hops as [|op rest Hop _ IH]; intros s Hinv; simpl; [by exists s|].
    destruct (replacements_unique_step op s Hpatcher Hop Hinv) as (s1 & Hstep & Hinv1).
    unfold bind. rewrite Hstep. by apply IH. }
  apply Hrun. split; [constructor|]. split; [constructor|done].
Qed.

End Unique.

Lemma pairwise_installs_unique_witness :
  ∃ s, run (host := careful_host)
         [CallInstall 0x1000 0x2000; CallInstall 0x3000 0x2000; CallInstall 0x3000 0x4000;
          CallCall 0x2000; CallInstall 0x1000 0x2000]
         (initial ∅ Mock.quiet) = Ok tt s
       ∧ replacements_unique s.
Proof.
  apply (pairwise_installs_unique (host := careful_host)).
  - intros hook w. simpl. unfold nullptr. lia.
  - repeat constructor.
Defined.

Section VTableMore.
Context {W : Type} {host : Host W}.
Implicit Types (s : State W) (w : W).

(** The vtable [Install], case by case; it never throws, whatever the
    state.  Refused the read-only probe, it answers false.  Otherwise the
    protection is put back, and: when the pointer [p] in the slot is already
    a key of the slot table it answers true without writing anything; when
    [p] is the replacement it answers false; when write access to the slot
    is refused it answers false; in these cases nothing but the host's world
    has changed.  In the remaining case it answers true, having captured the
    slot under [p], written the replacement into it and tracked the hook
    [(p, q)], touching no other memory cell and no other table entry. *)
Theorem Install_vtable_cases s vtable offset q :
  let slot := vtable + offset * sizeof_Function in
  let p := default nullptr (memory s !! slot) in
  Install_vtable vtable offset q s =
    match VirtualProtect slot PAGE_READONLY (world s) with
    | (None, w1) => Ok false (set_world w1 s)
    | (Some protection, w1) =>
        let w2 := snd (VirtualProtect slot protection w1) in
        if decide (is_Some (sVTableAddresses s !! p)) then Ok true (set_world w2 s)
        else if decide (p = q) then Ok false (set_world w2 s)
        else
          match VirtualProtect slot PAGE_READWRITE w2 with
          | (None, w3) => Ok false (set_world w3 s)
          | (Some writable, w3) =>
              Ok true
                (set_sHooks (sHooks s ++ [(mkHook p q p, VTableHook)])
                   (set_memory (<[slot := q]> (memory s))
                      (set_sVTableAddresses (<[p := slot]> (sVTableAddresses s))
                         (set_world (snd (VirtualProtect slot writable w3)) s))))
          end
    end.
Proof.
  intros slot p. unfold Install_vtable. cbv zeta. fold slot.
  unfold bind at 1. unfold call at 1.
  destruct (VirtualProtect slot PAGE_READONLY (world s)) as [[protection|] w1]; simpl; [|done].
  unfold bind at 1. unfold load at 1. simpl. fold p.
  unfold bind at 1. unfold get at 1. simpl.
  destruct (sVTableAddresses s !! p) as [captured|] eqn:Hfresh.
  { rewrite bool_decide_eq_false_2 by done.
    unfold bind, ret, call. simpl. destruct (VirtualProtect slot protection w1) as [? w2].
    simpl. destruct (decide (is_Some (Some captured))) as [_|Hnot]; [|by destruct Hnot].
    by rewrite bool_decide_eq_true_2. }
  rewrite bool_decide_eq_true_2 by done.
  destruct (decide (is_Some (@None Z))) as [Hsome|_]; [by destruct Hsome|].
  unfold bind at 1. unfold modify at 1. unfold bind at 1. unfold call at 1. simpl.
  destruct (VirtualProtect slot protection w1) as [restored w2]. simpl.
  destruct (decide (p = q)) as [Hsame|Hother].
  { unfold bind, ret, modify. simpl. unfold set_sVTableAddresses, set_world. simpl.
    by rewrite delete_insert_id. }
  unfold bind at 1. unfold Install_hook, Install_status.
  unfold bind at 1 2 3. unfold sVTableAddresses_at. simpl. rewrite lookup_insert_eq.
  unfold call at 1. simpl.
  destruct (VirtualProtect slot PAGE_READWRITE w2) as [[writable|] w3]; simpl.
  2: { unfold ret, bind, modify. simpl. unfold set_sVTableAddresses, set_world. simpl.
       by rewrite delete_insert_id. }
  unfold bind, store, modify, call, ret. simpl.
  by destruct (VirtualProtect slot writable w3) as [? w4].
Qed.

(** The hooked case: a fresh original pointer, a different replacement,
    every permission change on the slot granted. *)
Lemma Install_vtable_cases_aux s vtable offset q :
  let slot := vtable + offset * sizeof_Function in
  let p := default nullptr (memory s !! slot) in
  sVTableAddresses s !! p = None →
  p ≠ q →
  (∀ protect w, ∃ old w', VirtualProtect slot protect w = (Some old, w')) →
  ∃ w', Install_vtable vtable offset q s
        = Ok true (set_sHooks (sHooks s ++ [(mkHook p q p, VTableHook)])
                     (set_memory (<[slot := q]> (memory s))
                        (set_sVTableAddresses (<[p := slot]> (sVTableAddresses s))
                           (set_world w' s)))).
Proof.
  intros slot p Hfresh Hne Hvp. unfold Install_vtable. cbv zeta. fold slot.
  unfold bind at 1. unfold call at 1.
  destruct (Hvp PAGE_READONLY (world s)) as (o1 & w1 & ->). simpl.
  unfold bind at 1. unfold load at 1. simpl. fold p.
  unfold bind at 1. unfold get at 1. simpl.
  rewrite (bool_decide_eq_true_2 _ Hfresh).
  unfold bind at 1. unfold modify at 1. unfold bind at 1. unfold call at 1. simpl.
  destruct (Hvp o1 w1) as (o2 & w2 & ->).
  destruct (decide (p = q)); [done|].
  unfold bind at 1. unfold Install_hook, Install_status.
  unfold bind at 1 2 3. unfold sVTableAddresses_at. simpl. rewrite lookup_insert_eq.
  unfold call at 1. simpl.
  destruct (Hvp PAGE_READWRITE w2) as (o3 & w3 & ->). simpl.
  unfold bind, store, modify, call, ret. simpl.
  destruct (Hvp o3 w3) as (o4 & w4 & ->). simpl. by exists w4.
Qed.

(** Two hooks stacked on one slot are unwound in the wrong order.  The
    slot holds [p]; [Install] with [q], then with [q2] on the same slot,
    both granted; [Uninstall()] walks the table front to back, so it writes
    [p] and then [q]: the slot is left holding the first replacement [q],
    not the original pointer, while the hook table and both slot-table
    entries are gone. *)
Theorem stacked_vtable_hooks_restore_first_replacement s vtable offset q q2 :
  let slot := vtable + offset * sizeof_Function in
  let p := default nullptr (memory s !! slot) in
  sHooks s = [] →
  p ≠ nullptr → q ≠ nullptr → p ≠ q → q ≠ q2 →
  sVTableAddresses s !! p = None → sVTableAddresses s !! q = None →
  (∀ protect w, ∃ old w', VirtualProtect slot protect w = (Some old, w')) →
  ∃ s',
    (Install_vtable vtable offset q;; Install_vtable vtable offset q2;; Uninstall) s = Ok tt s'
    ∧ memory s' !! slot = Some q
    ∧ sHooks s' = []
    ∧ sVTableAddresses s' = sVTableAddresses s.
Proof.
  intros slot p Hempty Hp Hq Hpq Hqq2 Hfreshp Hfreshq Hvp.
  assert (Hp' : IsInstalled (mkHook p q p) = true) by (by apply bool_decide_eq_true_2).
  assert (Hq' : IsInstalled (mkHook q q2 q) = true) by (by apply bool_decide_eq_true_2).
  destruct (Install_vtable_cases_aux s vtable offset q) as (w1 & Hfirst); try done.
  unfold bind at 1. rewrite Hfirst. fold slot. fold p.
  set (s1 := set_sHooks _ _).
  destruct (Install_vtable_cases_aux s1 vtable offset q2) as (w2 & Hsecond).
  { subst s1. simpl. fold slot. rewrite lookup_insert_eq. simpl.
    rewrite lookup_insert_ne by done. done. }
  { subst s1. simpl. fold slot. by rewrite lookup_insert_eq. }
  { done. }
  unfold bind at 1. rewrite Hsecond. clear Hfirst Hsecond.
  subst s1. simpl. fold slot. rewrite lookup_insert_eq. simpl. rewrite Hempty. simpl.
  unfold Uninstall. unfold bind at 1. unfold get at 1. simpl.
  unfold Uninstall_hook. rewrite Hp', Hq'. simpl.
  unfold bind at 1 2 3 4. unfold sVTableAddresses_at at 1. simpl.
  rewrite lookup_insert_ne by done. rewrite lookup_insert_eq.
  unfold bind at 1. unfold call at 1. simpl.
  destruct (Hvp PAGE_READWRITE w2) as (o1 & w3 & ->). simpl.
  unfold bind at 1 2 3. unfold store at 1, modify at 1, call at 1. simpl.
  destruct (Hvp o1 w3) as (o2 & w4 & ->). simpl. unfold ret at 1. simpl.
  unfold bind at 1 2 3 4. unfold sVTableAddresses_at at 1. simpl.
  rewrite lookup_delete_ne by done. rewrite lookup_insert_eq.
  unfold bind at 1. unfold call at 1. simpl.
  destruct (Hvp PAGE_READWRITE w4) as (o3 & w5 & ->). simpl.
  unfold bind at 1 2 3. unfold store at 1, modify at 1, call at 1. simpl.
  destruct (Hvp o3 w5) as (o4 & w6 & ->). simpl.
  unfold bind, ret, modify, get, tell, call. simpl.
  assert (Htable : delete q (delete p (<[q := slot]> (<[p := slot]> (sVTableAddresses s))))
                   = sVTableAddresses s).
  { rewrite (delete_insert_ne _ p q) by done.
    rewrite (delete_insert_id (sVTableAddresses s) p) by done.
    by apply delete_insert_id. }
  destruct (decide (sExportHookModule s ≠ nullptr)); eexists; (split; [reflexivity|]); simpl;
    by rewrite lookup_insert_eq.
Qed.

End VTableMore.

Section BulkMore.
Context {W : Type} {host : Host W}.
Implicit Types (s : State W) (w : W) (installed : list (Hook * HookType)).

Lemma install_matches_sublist matches : ∀ s method counter,
  method ≠ VTableHook →
  ∃ installed w',
    install_matches matches method counter s
      = Ok (counter + List.length installed)%nat
           (set_sHooks (sHooks s ++ installed) (set_world w' s))
    ∧ map redirection installed `sublist_of` map (fun m => (fst m, snd m, method)) matches.
Proof.
  induction matches as [|m rest IH]; intros s method counter Hmethod; simpl.
  - exists [], (world s). rewrite set_same. simpl. by rewrite Nat.add_0_r.
  - destruct (Install_hook_frame s (fst m) (snd m) method Hmethod)
      as (first & w1 & Hstep & Hfirst).
    unfold bind. rewrite Hstep.
    destruct (IH (set_sHooks (sHooks s ++ first) (set_world w1 s)) method
                (if bool_decide (first ≠ []) then S counter else counter) Hmethod)
      as (installed & w2 & -> & Hsub).
    exists (first ++ installed), w2. rewrite set_sHooks_world_twice. split.
    + f_equal. destruct Hfirst as [->|[trampoline ->]]; simpl; lia.
    + destruct Hfirst as [->|[trampoline ->]]; simpl.
      * by apply sublist_cons.
      * by apply sublist_skip.
Qed.

Lemma install_matches_patch_all matches : ∀ s counter,
  install_matches matches FunctionHook counter s
  = Ok (counter + List.length (fst (patch_all matches (world s))))%nat
       (set_sHooks (sHooks s ++ fst (patch_all matches (world s)))
          (set_world (snd (patch_all matches (world s))) s)).
Proof.
  induction matches as [|m rest IH]; intros s counter; simpl.
  - rewrite set_same. unfold ret. f_equal. lia.
  - unfold bind. rewrite Install_hook_FunctionHook.
    destruct (Hook_Install _ _) as [[status trampoline] w1].
    destruct status; rewrite IH; simpl; destruct (patch_all rest w1) as [installed w'];
      simpl; f_equal; try lia; unfold set_sHooks, set_world; simpl; try done.
    by rewrite <- app_assoc.
Qed.

(** Partial failure of the bulk installer with the inline strategy.  It
    never throws and never stops at a refused patch: the patcher is asked
    for every expected redirection in export order, and the hooks appended
    to the table are exactly the granted ones, in that order, each with the
    patcher's trampoline; nothing else changes but the host's world.  It
    answers true exactly when a patch was granted.  So the hooks appended
    are a subsequence of the expected redirections (none for a filtered,
    unmatched or null symbol). *)
Theorem Install_module_partial s targetModule replacementModule :
  let expected := expected_hooks (world s) (GetModuleExports (world s) targetModule)
                    (GetModuleExports (world s) replacementModule) in
  let granted := patch_all expected (world s) in
  Install_module targetModule replacementModule FunctionHook s
    = Ok (bool_decide (fst granted ≠ []))
         (set_sHooks (sHooks s ++ fst granted) (set_world (snd granted) s))
  ∧ map redirection (fst granted)
    `sublist_of` map (fun m => (fst m, snd m, FunctionHook)) expected.
Proof.
  intros expected granted.
  assert (Hrun : install_matches expected FunctionHook 0%nat s
            = Ok (List.length (fst granted))
                 (set_sHooks (sHooks s ++ fst granted) (set_world (snd granted) s)))
    by apply install_matches_patch_all.
  split.
  - unfold Install_module, Install_exports, bind, ask.
    destruct (GetModuleExports (world s) targetModule) as [|symbol rest] eqn:Htarget.
    { subst granted expected. simpl. by rewrite set_same. }
    rewrite find_matches_expected. fold expected. rewrite Hrun. unfold ret. f_equal.
    destruct (fst granted); repeat case_bool_decide; simpl in *; done || lia.
  - destruct (install_matches_sublist expected s FunctionHook 0%nat ltac:(done))
      as (installed & w' & Hsame & Hsub).
    rewrite Hrun in Hsame. injection Hsame as _ Hhooks.
    apply app_inv_head in Hhooks. by rewrite Hhooks.
Qed.

Lemma install_matches_Export matches : ∀ s counter,
  install_matches matches Export counter s
  = Ok (counter + List.length matches)%nat (set_sHooks (sHooks s ++ export_hooks matches) s).
Proof.
  induction matches as [|m rest IH]; intros s counter; simpl.
  - unfold ret. rewrite Nat.add_0_r. f_equal. destruct s. unfold set_sHooks. simpl.
    by rewrite app_nil_r.
  - unfold bind, Install_hook, Install_status, bind, ret, modify. simpl. rewrite IH.
    f_equal; [lia|]. unfold set_sHooks. simpl. by rewrite <- app_assoc.
Qed.

(** The bulk [Install] with the export strategy. *)
Lemma Install_module_Export s targetModule replacementModule :
  Install_module targetModule replacementModule Export s
  = Ok (bool_decide (expected_hooks (world s) (GetModuleExports (world s) targetModule)
                       (GetModuleExports (world s) replacementModule) ≠ []))
       (set_sHooks (sHooks s ++ export_hooks
          (expected_hooks (world s) (GetModuleExports (world s) targetModule)
             (GetModuleExports (world s) replacementModule))) s).
Proof.
  unfold Install_module, Install_exports, bind, ask.
  destruct (GetModuleExports (world s) targetModule) as [|symbol rest] eqn:Htarget.
  { unfold ret. f_equal. destruct s. unfold set_sHooks; simpl. by rewrite app_nil_r. }
  rewrite find_matches_expected, install_matches_Export. unfold ret. f_equal.
  destruct (expected_hooks _ _ _); repeat case_bool_decide; simpl in *; done || lia.
Qed.

(** The bulk installer does not deduplicate: it goes through the internal
    [Install], which does not consult [Find].  Run twice with the export
    strategy it appends every expected hook twice, each with its target as
    trampoline, and touches nothing else. *)
Theorem Install_module_Export_twice s targetModule replacementModule :
  let expected := expected_hooks (world s) (GetModuleExports (world s) targetModule)
                    (GetModuleExports (world s) replacementModule) in
  (Install_module targetModule replacementModule Export;;
   Install_module targetModule replacementModule Export) s
  = Ok (bool_decide (expected ≠ []))
       (set_sHooks (sHooks s ++ export_hooks expected ++ export_hooks expected) s).
Proof.
  intros expected. unfold bind. rewrite Install_module_Export. fold expected.
  rewrite Install_module_Export. simpl. fold expected. f_equal.
  unfold set_sHooks. simpl. by rewrite app_assoc.
Qed.

Lemma expected_hooks_target w targetExports replacementExports t r :
  (t, r) ∈ expected_hooks w targetExports replacementExports → t ≠ nullptr.
Proof.
  unfold expected_hooks. rewrite list_elem_of_In, in_map_iff.
  intros (symbol & [= <- _] & Hin). apply filter_In in Hin as [_ Hhookable].
  unfold hookable in Hhookable.
  apply andb_prop in Hhookable as [Hhookable _]. apply andb_prop in Hhookable as [Hhookable _].
  apply andb_prop in Hhookable as [_ Haddress]. by apply bool_decide_eq_true in Haddress.
Qed.

Lemma find_hook_export_hooks matches r :
  find_hook (export_hooks matches) r
  = match find (fun m => bool_decide (snd m = r)) matches with
    | Some m => mkHook (fst m) (snd m) (fst m)
    | None => Hook_empty
    end.
Proof.
  unfold find_hook, export_hooks. induction matches as [|m rest IH]; simpl; [done|].
  destruct (bool_decide (snd m = r)); [done|]. exact IH.
Qed.

(** The export strategy end to end: with an export module deferred, the
    first [Call] loads it (the wide load-watch hook disabled around the
    load), keeps its handle, clears the deferred path, tracks every expected
    export hook, and answers, for a replacement [r] not tracked before, the
    address [t] that the loaded module exports under the name of [r]. *)
Theorem Call_resolves_export s r t module w1 :
  let watch := find_hook (sHooks s) addr_HookLoadLibraryW in
  let w2 := Hook_Enable watch true w1 in
  let current := GetModuleHandleEx addr_GetCurrentModuleHandle w2 in
  let expected := expected_hooks w2 (GetModuleExports w2 module) (GetModuleExports w2 current) in
  sExportHookPath s ≠ "" →
  LoadLibraryW (sExportHookPath s) (Hook_Enable watch false (world s)) = (module, w1) →
  module ≠ nullptr →
  (∀ it, it ∈ sHooks s → Replacement (fst it) ≠ r) →
  find (fun m => bool_decide (snd m = r)) expected = Some (t, r) →
  r ≠ nullptr → t ≠ r →
  Call r s
  = Ok t (set_sHooks (sHooks s ++ export_hooks expected)
            (set_world w2 (set_sExportHookPath "" (set_sExportHookModule module s)))).
Proof.
  intros watch w2 current expected Hpath Hload Hmodule Hfree Hfind Hr Hne.
  assert (Ht : t ≠ nullptr).
  { apply find_some in Hfind as [Hin _]. apply list_elem_of_In in Hin.
    by eapply expected_hooks_target. }
  assert (Hnone : find (fun it => bool_decide (Replacement (fst it) = r)) (sHooks s) = None).
  { destruct (find _ (sHooks s)) as [it|] eqn:Hfound; [|done].
    apply find_some in Hfound as [Hin Heq]. apply bool_decide_eq_true in Heq.
    apply list_elem_of_In in Hin. by destruct (Hfree it Hin). }
  subst watch w2 current expected.
  unfold Call. unfold bind at 1. unfold get at 1.
  apply String.eqb_neq in Hpath. rewrite Hpath. simpl.
  unfold bind at 1 2 3. unfold Find, bind, get, ret, tell, call. simpl.
  rewrite Hload. simpl. unfold modify. simpl.
  destruct (decide (module ≠ nullptr)); [|done]. simpl.
  unfold GetCurrentModuleHandle, ask. simpl.
  rewrite Install_module_Export. simpl.
  rewrite find_hook_app, Hnone, find_hook_export_hooks, Hfind. simpl.
  unfold IsValid. simpl. by rewrite !bool_decide_eq_true_2.
Qed.

(** A lazy load that fails: the deferred path stays set, so the next
    [Call] tries again; the handle is null, the table is untouched, and the
    call is answered from the table as it is. *)
Theorem Call_load_failure_keeps_path s r w1 :
  let watch := find_hook (sHooks s) addr_HookLoadLibraryW in
  sExportHookPath s ≠ "" →
  LoadLibraryW (sExportHookPath s) (Hook_Enable watch false (world s)) = (nullptr, w1) →
  Call r s
  = Ok (if IsValid (find_hook (sHooks s) r) then Trampoline (find_hook (sHooks s) r)
        else nullptr)
       (set_world (Hook_Enable watch true w1) (set_sExportHookModule nullptr s)).
Proof.
  intros watch Hpath Hload. subst watch.
  unfold Call. unfold bind at 1. unfold get at 1.
  apply String.eqb_neq in Hpath. rewrite Hpath. simpl.
  unfold bind at 1 2 3. unfold Find, bind, get, ret, tell, call. simpl.
  rewrite Hload. simpl. unfold modify. simpl.
  destruct (decide (nullptr ≠ nullptr)); [done|]. simpl.
  by destruct (IsValid _).
Qed.

End BulkMore.

Section DelayedMore.
Context {W : Type} {host : Host W}.
Implicit Types (s : State W) (w : W) (installed : list (Hook * HookType)).

(** [Call] only appends to the hook table; pending list, slot table and
    memory are as before. *)
Lemma Call_shape s r f s' :
  Call r s = Ok f s' →
  (∃ installed, sHooks s' = sHooks s ++ installed)
  ∧ sDelayedHookPaths s' = sDelayedHookPaths s
  ∧ sVTableAddresses s' = sVTableAddresses s ∧ memory s' = memory s.
Proof.
  unfold Call. unfold bind at 1. unfold get at 1.
  destruct (negb (String.eqb (sExportHookPath s) "")).
  - unfold bind at 1 2 3. unfold Find, bind, get, ret, tell, call. simpl.
    destruct (LoadLibraryW _ _) as [module w1]. simpl. unfold modify. simpl.
    destruct (decide (module ≠ nullptr)); simpl.
    + unfold GetCurrentModuleHandle, ask. simpl. rewrite Install_module_Export. simpl.
      destruct (negb _); intros [= <- <-]; simpl; eauto.
    + destruct (negb _); intros [= <- <-]; simpl; (split; [|done]); exists [];
        by rewrite app_nil_r.
  - unfold bind, Find, get, ret. simpl.
    destruct (negb _); intros [= <- <-]; (split; [|done]); exists []; by rewrite app_nil_r.
Qed.

Lemma find_index_split {A} (p : A → bool) (l : list A) : ∀ i,
  find_index p l = Some i →
  ∃ l1 x l2, l = l1 ++ x :: l2 ∧ p x = true ∧ Forall (fun y => p y = false) l1
             ∧ erase_at i l = l1 ++ l2.
Proof.
  induction l as [|y l IH]; intros i; simpl; [done|].
  destruct (p y) eqn:Hy.
  - intros [= <-]. exists [], y, l. by repeat split.
  - destruct (find_index p l) as [j|]; [|done]. simpl. intros [= <-].
    destruct (IH j eq_refl) as (l1 & x & l2 & -> & Hx & Hl1 & Herase).
    exists (y :: l1), x, l2. split; [done|]. split; [done|]. split; [by constructor|].
    unfold erase_at in *. simpl. by rewrite Herase.
Qed.

(** What a load-watch hook does once [Call] gave it the original loader
    and the loader returned. *)
Lemma HookLoadLibrary_unfold s self lpFileName original s1 handle w2 :
  Call self s = Ok original s1 →
  original ≠ nullptr →
  invoke original lpFileName (world s1) = (handle, w2) →
  HookLoadLibrary self lpFileName s =
    if decide (handle = nullptr) then Ok nullptr (set_world w2 s1)
    else match find_index (stem_matches lpFileName) (sDelayedHookPaths s1) with
         | Some it =>
             (let* ok := Install_module handle
                           (GetModuleHandleEx addr_GetCurrentModuleHandle w2) FunctionHook in
              (if ok
               then modify (fun s => set_sDelayedHookPaths (erase_at it (sDelayedHookPaths s)) s)
               else ret tt);;
              ret handle) (set_world w2 s1)
         | None => Ok handle (set_world w2 s1)
         end.
Proof.
  intros Hcall Hnonnull Hinvoke.
  unfold HookLoadLibrary. unfold bind at 1. rewrite Hcall.
  destruct (decide (original = nullptr)); [done|].
  unfold bind at 1. unfold call. rewrite Hinvoke.
  destruct (decide (handle = nullptr)); [by destruct s1|].
  unfold bind at 1. unfold get. simpl. fold (stem_matches lpFileName).
  destruct (find_index _ _); [|by destruct s1].
  unfold bind at 1. unfold GetCurrentModuleHandle, ask. simpl. by destruct s1.
Qed.

(** A load-watch hook is transparent to its caller: when it returns, what
    it returns is what the original loader (the pointer [Call] answered
    for the hook itself) returned for the same file name; and when the
    loader failed (null handle) no bulk install ran: only the world differs
    from the state [Call] left.  It never writes memory or the slot table. *)
Theorem HookLoadLibrary_transparent s self lpFileName handle s' :
  HookLoadLibrary self lpFileName s = Ok handle s' →
  ∃ original s1 w2,
    Call self s = Ok original s1
    ∧ original ≠ nullptr
    ∧ invoke original lpFileName (world s1) = (handle, w2)
    ∧ (handle = nullptr → s' = set_world w2 s1)
    ∧ memory s' = memory s ∧ sVTableAddresses s' = sVTableAddresses s.
Proof.
  intros Hrun.
  destruct (Call_extends s self) as (original & s1 & Hcall & _).
  destruct (decide (original = nullptr)) as [Hnull|Hnonnull].
  { unfold HookLoadLibrary, bind in Hrun. rewrite Hcall in Hrun.
    by destruct (decide (original = nullptr)). }
  destruct (invoke original lpFileName (world s1)) as [h w2] eqn:Hinvoke.
  rewrite (HookLoadLibrary_unfold s self lpFileName original s1 h w2) in Hrun by done.
  pose proof (Call_shape _ _ _ _ Hcall) as (_ & _ & Hslots & Hmem).
  exists original, s1, w2.
  destruct (decide (h = nullptr)) as [->|Hh].
  { injection Hrun as <- <-. by repeat split. }
  destruct (find_index _ _) as [it|].
  2: { injection Hrun as <- <-. by repeat split. }
  unfold bind at 1 in Hrun.
  destruct (Install_module_frame (set_world w2 s1) h
              (GetModuleHandleEx addr_GetCurrentModuleHandle w2) FunctionHook)
    as (installed & w3 & Hbulk & _); [done|].
  rewrite Hbulk in Hrun.
  destruct (bool_decide _); unfold bind, modify, ret in Hrun; injection Hrun as <- <-;
    by repeat split.
Qed.

(** The pending list under a load-watch hook: either it is as before, or
    exactly one entry is gone, the first one that has the stem of the loaded
    file name, and then the hook table has grown. *)
Theorem HookLoadLibrary_erases_first_match s self lpFileName handle s' :
  HookLoadLibrary self lpFileName s = Ok handle s' →
  sDelayedHookPaths s' = sDelayedHookPaths s
  ∨ ∃ l1 x l2,
      sDelayedHookPaths s = l1 ++ x :: l2
      ∧ stem_matches lpFileName x = true
      ∧ Forall (fun y => stem_matches lpFileName y = false) l1
      ∧ sDelayedHookPaths s' = l1 ++ l2
      ∧ (List.length (sHooks s) < List.length (sHooks s'))%nat.
Proof.
  intros Hrun.
  destruct (Call_extends s self) as (original & s1 & Hcall & _).
  destruct (decide (original = nullptr)) as [Hnull|Hnonnull].
  { unfold HookLoadLibrary, bind in Hrun. rewrite Hcall in Hrun.
    by destruct (decide (original = nullptr)). }
  destruct (invoke original lpFileName (world s1)) as [h w2] eqn:Hinvoke.
  rewrite (HookLoadLibrary_unfold s self lpFileName original s1 h w2) in Hrun by done.
  pose proof (Call_shape _ _ _ _ Hcall) as ([grown Hgrown] & Hpending & _).
  destruct (decide (h = nullptr)) as [->|Hh].
  { injection Hrun as <- <-. by left. }
  destruct (find_index _ _) as [it|] eqn:Hfind.
  2: { injection Hrun as <- <-. by left. }
  unfold bind at 1 in Hrun.
  destruct (Install_module_frame (set_world w2 s1) h
              (GetModuleHandleEx addr_GetCurrentModuleHandle w2) FunctionHook)
    as (installed & w3 & Hbulk & _); [done|].
  rewrite Hbulk in Hrun.
  destruct (bool_decide _) eqn:Hcount; unfold bind, modify, ret in Hrun;
    injection Hrun as <- <-; [|by left].
  right. apply bool_decide_eq_true in Hcount.
  destruct (find_index_split _ _ _ Hfind) as (l1 & x & l2 & Hsplit & Hx & Hl1 & Herase).
  exists l1, x, l2. simpl. rewrite <- Hpending. split; [done|]. split; [done|].
  split; [done|]. split; [done|]. rewrite Hgrown, !length_app. lia.
Qed.

(** After [Uninstall()], with no export module deferred, the registry
    answers nothing: [Find] gives the empty hook and [Call] gives null for
    every replacement, so a load-watch hook that is still entered, because
    the patcher could not remove its detour, calls through a null pointer. *)
Theorem entry_points_after_Uninstall s :
  registry_invariant s →
  sExportHookPath s = "" →
  ∃ s', Uninstall s = Ok tt s'
        ∧ (∀ r, Find r s' = Ok Hook_empty s')
        ∧ (∀ r, Call r s' = Ok nullptr s')
        ∧ (∀ self lpFileName, HookLoadLibrary self lpFileName s' = Throw NullCall).
Proof.
  intros Hinv Hpath.
  destruct (Uninstall_invariant s Hinv) as (s' & Hrun & Hempty & _).
  exists s'. split; [done|].
  apply Uninstall_frame in Hrun as (_ & _ & Hpath' & _). rewrite Hpath in Hpath'.
  assert (Hcall : ∀ r, Call r s' = Ok nullptr s').
  { intros r. rewrite Call_resolved by done. by rewrite Hempty. }
  split; [|split; [done|]].
  - intros r. unfold Find, bind, get, ret. by rewrite Hempty.
  - intros self lpFileName. unfold HookLoadLibrary, bind. rewrite Hcall.
    by destruct (decide (nullptr = nullptr)).
Qed.

(** [Register] of a path whose module is already loaded (and is not the
    manager's own): after the bootstrap of the load-watch hooks, the bulk
    installer runs at once against the loaded module with the inline
    strategy; nothing is queued and no export path is deferred. *)
Theorem Register_loaded_installs_now s targetPath :
  ∃ b added w1,
    let s1 := set_sHooks (sHooks s ++ added) (set_world w1 s) in
    let targetModule := GetModuleHandle targetPath w1 in
    let current := GetModuleHandleEx addr_GetCurrentModuleHandle w1 in
    install_load_watch s = Ok b s1
    ∧ Forall load_watch_hook added
    ∧ (names_own_module targetPath w1 = false →
       targetModule ≠ nullptr →
       ∃ installed w2,
         Install_module targetModule current FunctionHook s1
           = Ok (bool_decide (List.length installed ≠ 0%nat))
                (set_sHooks (sHooks s1 ++ installed) (set_world w2 s1))
         ∧ Forall (fun it => snd it = FunctionHook) installed
         ∧ Register targetPath s
           = Ok tt (set_sHooks (sHooks s1 ++ installed) (set_world w2 s1))).
Proof.
  destruct (install_load_watch_frame s) as (b & added & w1 & Hwatch & Hall & _).
  exists b, added, w1. cbv zeta. split; [done|]. split; [done|].
  intros Hown Hloaded.
  destruct (Install_module_frame (set_sHooks (sHooks s ++ added) (set_world w1 s))
              (GetModuleHandle targetPath w1)
              (GetModuleHandleEx addr_GetCurrentModuleHandle w1) FunctionHook)
    as (installed & w2 & Hbulk & Hinline); [done|].
  exists installed, w2. split; [done|]. split; [done|].
  unfold Register. unfold install_load_watch, bind in Hwatch. unfold bind at 1 2.
  destruct (Install addr_LoadLibraryA addr_HookLoadLibraryA s) as [b1 s0|e]; [|done].
  rewrite Hwatch. unfold bind at 1 2. unfold GetCurrentModuleHandle, ask. simpl.
  unfold names_own_module in Hown. rewrite Hown.
  unfold bind at 1. simpl.
  destruct (decide (GetModuleHandle targetPath w1 ≠ nullptr)); [|done].
  unfold bind. rewrite Hbulk. done.
Qed.

End DelayedMore.

Section ExportTableMore.
Context {W : Type} {host : Host W}.
Implicit Types (s : State W) (w : W).

(** One symbol of the export table, by its position in the name tables.
    The ordinal is the name's entry in the ordinal table plus the ordinal
    base, kept in 16 bits; the function-table index is that ordinal minus
    the base again.  Without overflow the index is the ordinal-table entry;
    when the sum overflows 16 bits the index is 65536 too small, negative:
    the address is read from before the function table. *)
Theorem read_export_ordinal w imageBase (imageExports : IMAGE_EXPORT_DIRECTORY) i :
  let raw := WORD_at w (imageBase + AddressOfNameOrdinals imageExports + 2 * i) in
  let base := WORD (Base imageExports) in
  let symbol := read_export w imageBase imageExports i in
  0 ≤ raw < 2 ^ 16 →
  NumberOfFunctions imageExports > 0 →
  0 ≤ Ordinal symbol < 2 ^ 16
  ∧ (raw + base < 2 ^ 16 →
     Ordinal symbol = raw + base
     ∧ Address symbol
       = imageBase + DWORD_at w (imageBase + AddressOfFunctions imageExports + 4 * raw))
  ∧ (2 ^ 16 ≤ raw + base →
     Ordinal symbol = raw + base - 2 ^ 16
     ∧ Address symbol
       = imageBase + DWORD_at w (imageBase + AddressOfFunctions imageExports
                                 + 4 * (raw - 2 ^ 16))).
Proof.
  intros raw base symbol Hraw Hfunctions.
  assert (Hbase : 0 ≤ base < 2 ^ 16) by (apply Z.mod_pos_bound; lia).
  subst symbol. unfold read_export. simpl. fold raw. fold base.
  destruct (decide (NumberOfFunctions imageExports > 0)); [|done].
  split; [apply Z.mod_pos_bound; lia|]. split.
  - intros Hsmall.
    assert (Hmod : WORD (raw + base) = raw + base) by (apply Z.mod_small; lia).
    rewrite Hmod. split; [done|]. do 3 f_equal. lia.
  - intros Hwrap.
    assert (Hmod : WORD (raw + base) = raw + base - 2 ^ 16).
    { unfold WORD. replace (raw + base) with (raw + base - 2 ^ 16 + 1 * 2 ^ 16) at 1 by lia.
      rewrite Z_mod_plus_full. apply Z.mod_small. lia. }
    rewrite Hmod. split; [done|]. do 3 f_equal. lia.
Qed.

Lemma find_matches_null_addresses w targetExports replacementExports :
  Forall (fun symbol => Address symbol = nullptr) targetExports →
  find_matches w targetExports replacementExports = [].
Proof.
  induction 1 as [|symbol rest Hnull _ IH]; simpl; [done|].
  destruct (decide (Name symbol = nullptr ∨ Address symbol = nullptr)) as [|Hno]; [done|].
  destruct Hno. by right.
Qed.

(** A module with a valid header and a non-empty export data directory
    parses to one symbol per entry of the name table, every ordinal within
    16 bits; when the directory lists no function, every address is null. *)
Theorem GetModuleExports_valid w (handle : Z) :
  let imageHeader := dos_header_at w handle in
  let imageHeaderNT := nt_headers_at w (handle + e_lfanew imageHeader) in
  let imageExports :=
    export_directory_at w (handle + VirtualAddress (ExportDataDirectory imageHeaderNT)) in
  e_magic imageHeader = IMAGE_DOS_SIGNATURE →
  Signature imageHeaderNT = IMAGE_NT_SIGNATURE →
  Size (ExportDataDirectory imageHeaderNT) ≠ 0 →
  List.length (GetModuleExports w handle) = Z.to_nat (NumberOfNames imageExports)
  ∧ Forall (fun symbol => 0 ≤ Ordinal symbol < 2 ^ 16) (GetModuleExports w handle)
  ∧ (NumberOfFunctions imageExports ≤ 0 →
     Forall (fun symbol => Address symbol = nullptr) (GetModuleExports w handle)).
Proof.
  intros imageHeader imageHeaderNT imageExports Hdos Hnt Hsize.
  unfold GetModuleExports. fold imageHeader. fold imageHeaderNT. fold imageExports.
  rewrite (bool_decide_eq_true_2 _ Hdos), (bool_decide_eq_true_2 _ Hnt),
    (bool_decide_eq_false_2 _ Hsize). simpl.
  split; [by rewrite length_map, length_seq|]. split.
  - apply Forall_forall. intros symbol Hin.
    apply list_elem_of_In, in_map_iff in Hin as (i & <- & _).
    unfold read_export. simpl. apply Z.mod_pos_bound. lia.
  - intros Hnone. apply Forall_forall. intros symbol Hin.
    apply list_elem_of_In, in_map_iff in Hin as (i & <- & _).
    unfold read_export. simpl.
    destruct (decide (NumberOfFunctions imageExports > 0)); [lia|done].
Qed.

(** A target module whose export directory lists names but no function is
    skipped by the bulk installer whatever the strategy: every symbol has a
    null address, nothing matches, the answer is false and the state is
    untouched. *)
Theorem Install_module_without_functions s (handle replacementModule : Z) method :
  let imageHeader := dos_header_at (world s) handle in
  let imageHeaderNT := nt_headers_at (world s) (handle + e_lfanew imageHeader) in
  let imageExports :=
    export_directory_at (world s)
      (handle + VirtualAddress (ExportDataDirectory imageHeaderNT)) in
  NumberOfFunctions imageExports ≤ 0 →
  Install_module handle replacementModule method s = Ok false s.
Proof.
  intros imageHeader imageHeaderNT imageExports Hnone.
  assert (Hnull : Forall (fun symbol => Address symbol = nullptr)
                    (GetModuleExports (world s) handle)).
  { unfold GetModuleExports. fold imageHeader. fold imageHeaderNT. fold imageExports.
    destruct (_ || _); [constructor|]. apply Forall_forall. intros symbol Hin.
    apply list_elem_of_In, in_map_iff in Hin as (i & <- & _).
    unfold read_export. simpl.
    destruct (decide (NumberOfFunctions imageExports > 0)); [lia|done]. }
  unfold Install_module, Install_exports, bind, ask.
  destruct (GetModuleExports (world s) handle) as [|symbol rest] eqn:Htarget; [done|].
  by rewrite (find_matches_null_addresses _ _ _ Hnull).
Qed.

End ExportTableMore.

(** ** The further properties on examples *)

Lemma Install_then_Call_witness :
  ∃ s1, Install (host := Mock.mock) 0x1000 0x2000 fresh = Ok true s1
        ∧ Call (host := Mock.mock) 0x2000 s1 = Ok 0x1001 s1.
Proof.
  apply (Install_then_Call (host := Mock.mock) fresh 0x1000 0x2000 0x1001 Mock.quiet);
    try done.
  intros it Hin. by apply elem_of_nil in Hin.
Defined.

Lemma Uninstall_hook_idempotent_witness :
  Uninstall_hook (host := Mock.mock) (mkHook 0x3000 0x4000 0x3000) VTableHook slot_hooked
    = Ok (true, mkHook 0x3000 0x4000 nullptr) (set_sHooks (sHooks slot_hooked) slot_0x2000)
  ∧ Uninstall_hook (host := Mock.mock) (mkHook 0x3000 0x4000 nullptr) VTableHook
      (set_sHooks (sHooks slot_hooked) slot_0x2000)
    = Ok (true, mkHook 0x3000 0x4000 nullptr) (set_sHooks (sHooks slot_hooked) slot_0x2000).
Proof.
  split; [reflexivity|].
  apply (Uninstall_hook_idempotent (host := Mock.mock) slot_hooked
           (mkHook 0x3000 0x4000 0x3000) VTableHook).
  reflexivity.
Defined.

Lemma Uninstall_keeps_witness :
  sHooks slot_0x2000 = []
  ∧ sExportHookModule slot_0x2000 = sExportHookModule slot_hooked
  ∧ sExportHookPath slot_0x2000 = sExportHookPath slot_hooked
  ∧ sDelayedHookPaths slot_0x2000 = sDelayedHookPaths slot_hooked
  ∧ sVTableAddresses slot_0x2000 ⊆ sVTableAddresses slot_hooked
  ∧ ∀ a, (∀ it, it ∈ sHooks slot_hooked → snd it = VTableHook →
                sVTableAddresses slot_hooked !! Target (fst it) ≠ Some a) →
         memory slot_0x2000 !! a = memory slot_hooked !! a.
Proof.
  apply (Uninstall_keeps (host := Mock.mock) slot_hooked slot_0x2000). reflexivity.
Defined.

Lemma stacked_vtable_hooks_restore_first_replacement_witness :
  (Install_vtable (host := Mock.mock) 0x2000 0 0x4000;;
   Install_vtable (host := Mock.mock) 0x2000 0 0x5000) slot_0x2000 = Ok true slot_stacked
  ∧ ∃ s',
      (Install_vtable (host := Mock.mock) 0x2000 0 0x4000;;
       Install_vtable (host := Mock.mock) 0x2000 0 0x5000;;
       Uninstall (host := Mock.mock)) slot_0x2000 = Ok tt s'
      ∧ memory s' !! 0x2000 = Some 0x4000
      ∧ sHooks s' = []
      ∧ sVTableAddresses s' = sVTableAddresses slot_0x2000.
Proof.
  split; [reflexivity|].
  apply (stacked_vtable_hooks_restore_first_replacement (host := Mock.mock)
           slot_0x2000 0x2000 0 0x4000 0x5000); try done.
  intros protect w. exists 0x20, w. simpl. by rewrite andb_false_r.
Defined.

(** The patcher refuses Foo and grants Bar: the bulk installer goes on
    past the refusal and tracks the hook of Bar. *)
Lemma Install_module_partial_witness :
  expected_hooks (host := Mock.host_with [0x100] []) foo_bar_both
    (GetModuleExports (host := Mock.host_with [0x100] []) foo_bar_both 0x10)
    (GetModuleExports (host := Mock.host_with [0x100] []) foo_bar_both 0x800)
  = [(0x100, 0x900); (0x200, 0x910)]
  ∧ patch_all (host := Mock.host_with [0x100] []) [(0x100, 0x900); (0x200, 0x910)] foo_bar_both
    = ([(mkHook 0x200 0x910 0x201, FunctionHook)], foo_bar_both)
  ∧ Install_module (host := Mock.host_with [0x100] []) 0x10 0x800 FunctionHook
      (initial ∅ foo_bar_both)
    = Ok true (set_sHooks [(mkHook 0x200 0x910 0x201, FunctionHook)] (initial ∅ foo_bar_both))
  ∧ map redirection [(mkHook 0x200 0x910 0x201, FunctionHook)]
    `sublist_of` [(0x100, 0x900, FunctionHook); (0x200, 0x910, FunctionHook)].
Proof.
  split; [reflexivity|]. split; [reflexivity|].
  exact (Install_module_partial (host := Mock.host_with [0x100] [])
           (initial ∅ foo_bar_both) 0x10 0x800).
Defined.

Lemma Call_resolves_export_witness :
  Register (host := Mock.mock) d3d9_path (initial ∅ d3d9_images) = Ok tt d3d9_deferred
  ∧ Call (host := Mock.mock) 0x10003000 d3d9_deferred = Ok 0x60003000 d3d9_resolved.
Proof.
  split; [reflexivity|].
  apply (Call_resolves_export (host := Mock.mock) d3d9_deferred 0x10003000 0x60003000
           0x60000000 d3d9_images); try done.
  intros it Hin Heq. unfold d3d9_deferred, load_watch_hooks in Hin. simpl in Hin.
  repeat (apply elem_of_cons in Hin as [->|Hin]; [discriminate Heq|]).
  by apply elem_of_nil in Hin.
Defined.

Lemma Call_load_failure_keeps_path_witness :
  Call (host := Mock.mock) 0x10003000 d3d9_missing = Ok nullptr d3d9_missing.
Proof.
  by apply (Call_load_failure_keeps_path (host := Mock.mock) d3d9_missing 0x10003000 Mock.quiet).
Defined.

Lemma HookLoadLibrary_transparent_witness :
  HookLoadLibrary (host := Mock.mock) 0x10000100 "DXGI.DLL" dxgi_pending
    = Ok 0x50000000 dxgi_hooked
  ∧ ∃ original s1 w2,
      Call (host := Mock.mock) 0x10000100 dxgi_pending = Ok original s1
      ∧ original ≠ nullptr
      ∧ invoke (Host := Mock.mock) original "DXGI.DLL" (world s1) = (0x50000000, w2)
      ∧ (0x50000000 = nullptr → dxgi_hooked = set_world w2 s1)
      ∧ memory dxgi_hooked = memory dxgi_pending
      ∧ sVTableAddresses dxgi_hooked = sVTableAddresses dxgi_pending.
Proof.
  split; [reflexivity|].
  apply (HookLoadLibrary_transparent (host := Mock.mock) dxgi_pending 0x10000100 "DXGI.DLL").
  reflexivity.
Defined.

Lemma HookLoadLibrary_erases_first_match_witness :
  sDelayedHookPaths dxgi_hooked = sDelayedHookPaths dxgi_pending
  ∨ ∃ l1 x l2,
      sDelayedHookPaths dxgi_pending = l1 ++ x :: l2
      ∧ stem_matches (host := Mock.mock) "DXGI.DLL" x = true
      ∧ Forall (fun y => stem_matches (host := Mock.mock) "DXGI.DLL" y = false) l1
      ∧ sDelayedHookPaths dxgi_hooked = l1 ++ l2
      ∧ (List.length (sHooks dxgi_pending) < List.length (sHooks dxgi_hooked))%nat.
Proof.
  apply (HookLoadLibrary_erases_first_match (host := Mock.mock) dxgi_pending 0x10000100
           "DXGI.DLL" 0x50000000).
  reflexivity.
Defined.

Lemma entry_points_after_Uninstall_witness :
  ∃ s', Uninstall (host := Mock.mock) hooked_0x2000 = Ok tt s'
        ∧ (∀ r, Find r s' = Ok Hook_empty s')
        ∧ (∀ r, Call (host := Mock.mock) r s' = Ok nullptr s')
        ∧ (∀ self lpFileName,
             HookLoadLibrary (host := Mock.mock) self lpFileName s' = Throw NullCall).
Proof.
  apply (entry_points_after_Uninstall (host := Mock.mock) hooked_0x2000); [|done].
  split.
  - intros it Hin Htype. apply list_elem_of_singleton in Hin as ->. discriminate Htype.
  - constructor.
Defined.

Lemma Register_loaded_installs_now_witness :
  Register (host := Mock.mock) dxgi_path (initial ∅ dxgi_loaded_world)
    = Ok tt (mkState nullptr ""
               (load_watch_hooks ++ [(mkHook 0x50003000 0x10003000 0x50003001, FunctionHook)])
               [] ∅ ∅ dxgi_loaded_world)
  ∧ ∃ b added w1,
      install_load_watch (host := Mock.mock) (initial ∅ dxgi_loaded_world)
        = Ok b (set_sHooks ([] ++ added) (set_world w1 (initial ∅ dxgi_loaded_world)))
      ∧ Forall (load_watch_hook (host := Mock.mock)) added.
Proof.
  split; [reflexivity|].
  destruct (Register_loaded_installs_now (host := Mock.mock) (initial ∅ dxgi_loaded_world)
              dxgi_path) as (b & added & w1 & Hwatch & Hall & _).
  by exists b, added, w1.
Defined.

Lemma read_export_ordinal_witness :
  read_export (host := Mock.mock) foo_bar_baz 0x10 (mkExportDirectory 1 2 2 0x1100 0x1200 0x1300) 1
    = mkExport 0x200 0x2110 2
  ∧ 0 ≤ Ordinal (read_export (host := Mock.mock) foo_bar_baz 0x10
                   (mkExportDirectory 1 2 2 0x1100 0x1200 0x1300) 1) < 2 ^ 16.
Proof.
  split; [reflexivity|].
  apply (read_export_ordinal (host := Mock.mock) foo_bar_baz 0x10
           (mkExportDirectory 1 2 2 0x1100 0x1200 0x1300) 1); by vm_compute.
Defined.

Lemma GetModuleExports_valid_witness :
  List.length (GetModuleExports (host := Mock.mock) foo_bar_baz 0x10) = 2%nat
  ∧ Forall (fun symbol => 0 ≤ Ordinal symbol < 2 ^ 16)
      (GetModuleExports (host := Mock.mock) foo_bar_baz 0x10).
Proof.
  destruct (GetModuleExports_valid (host := Mock.mock) foo_bar_baz 0x10)
    as (Hlength & Hordinals & _); try done.
Defined.

Lemma Install_module_without_functions_witness :
  GetModuleExports (host := Mock.mock) names_only 0x40000000 = [mkExport nullptr 0x40002000 1]
  ∧ Install_module (host := Mock.mock) 0x40000000 0x800 FunctionHook (initial ∅ names_only)
    = Ok false (initial ∅ names_only).
Proof.
  split; [reflexivity|].
  by apply (Install_module_without_functions (host := Mock.mock) (initial ∅ names_only)).
Defined.

Section VTableCall.
Context {W : Type} {host : Host W}.
Implicit Types (s : State W).

(** Hook a vtable slot, then call: for a slot holding a non-null pointer
    [p] not yet captured, a non-null replacement [q != p] that no tracked
    hook has, and granted permission changes, the vtable [Install]
    succeeds and [Call(q)] then answers [p], the function the slot pointed
    to. *)
Theorem Install_vtable_then_Call s vtable offset q :
  let slot := vtable + offset * sizeof_Function in
  let p := default nullptr (memory s !! slot) in
  p ≠ nullptr → q ≠ nullptr → p ≠ q →
  sVTableAddresses s !! p = None →
  sExportHookPath s = "" →
  (∀ it, it ∈ sHooks s → Replacement (fst it) ≠ q) →
  (∀ protect w, ∃ old w', VirtualProtect slot protect w = (Some old, w')) →
  ∃ s1, Install_vtable vtable offset q s = Ok true s1 ∧ Call q s1 = Ok p s1.
Proof.
  intros slot p Hp Hq Hne Hfresh Hpath Hfree Hvp.
  destruct (Install_vtable_cases_aux s vtable offset q Hfresh Hne Hvp) as (w' & ->).
  eexists. split; [reflexivity|].
  assert (Hnone : find (fun it => bool_decide (Replacement (fst it) = q)) (sHooks s) = None).
  { destruct (find _ (sHooks s)) as [it|] eqn:Hfind; [|done].
    apply find_some in Hfind as [Hin Heq]. apply bool_decide_eq_true in Heq.
    apply list_elem_of_In in Hin. by destruct (Hfree it Hin). }
  rewrite Call_resolved by done. simpl. fold slot. fold p.
  rewrite find_hook_app, Hnone. unfold find_hook, IsValid. simpl.
  rewrite (bool_decide_eq_true_2 (q = q)) by done. simpl.
  by rewrite !bool_decide_eq_true_2.
Qed.

End VTableCall.

Lemma Install_vtable_then_Call_witness :
  Install_vtable (host := Mock.mock) 0x2000 0 0x4000 slot_0x2000 = Ok true slot_hooked
  ∧ ∃ s1, Install_vtable (host := Mock.mock) 0x2000 0 0x4000 slot_0x2000 = Ok true s1
          ∧ Call (host := Mock.mock) 0x4000 s1 = Ok 0x3000 s1.
Proof.
  split; [reflexivity|].
  apply (Install_vtable_then_Call (host := Mock.mock) slot_0x2000 0x2000 0 0x4000);
    try done.
  - intros it Hin. by apply elem_of_nil in Hin.
  - intros protect w. exists 0x20, w. simpl. by rewrite andb_false_r.
Defined.
